(** * Quote suggestion service: the reconciliation pipeline

    A shallow embedding of [ai_service/models.py],
    [ai_service/context_builder.py] and [ai_service/quote_generator.py],
    with the properties of the quote-suggestion path stated over it.

    Modelling conventions.
    - A Python [float] is an exact rational ([Q]): the development speaks
      about the arithmetic the code asks for, not about binary64 rounding,
      infinities or NaN.  The margin, where the rounding of the machine
      decides, is modelled a second time in binary64 ([Binary64]).
      A Python [int] is a [Z].
    - A Python [str] is a [string], one character per element.
    - A decoded JSON document is a [json] value; a [dict] is a [gmap].
    - An exception is a constructor of [Py.exn]; code that may raise
      returns a [Py.result].
    - The language model and the clock are the environment: one answer per
      attempt, given the prompt that was sent. *)

From Stdlib Require Import Ascii String QArith Qround Qabs Lia Lqa DecimalString.
From Stdlib Require Floats Uint63.
From stdpp Require Import base option list gmap strings.

Set Warnings "-register-all".
Set Warnings "-inexact-float".

(* ===================================================================== *)
(** ** The Python runtime the code relies on *)
(* ===================================================================== *)

Module Py.

(** The exceptions that can travel through [suggest_quote]. *)
Inductive exn : Type :=
  | APIError                 (* raised by [client.chat.completions.create] *)
  | JSONDecodeError          (* raised by [json.loads] *)
  | ValueError (msg : string)
  | KeyError (key : string)
  | TypeError
  | AttributeError
  | ZeroDivisionError
  | ValidationError          (* raised by a pydantic constructor *)
  | RetryError (last : exn). (* raised by tenacity when it gives up *)

Inductive result (A : Type) : Type :=
  | Return (a : A)
  | Raise (e : exn).

Arguments Return {A} a.
Arguments Raise {A} e.

Definition bind {A B : Type} (m : result A) (k : A → result B) : result B :=
  match m with
  | Return a => k a
  | Raise e => Raise e
  end.

(** A comprehension [[f(x) for x in l]]: left to right, stopping at the
    first exception. *)
Fixpoint comprehension {A B : Type} (f : A → result B) (l : list A)
  : result (list B) :=
  match l with
  | [] => Return []
  | x :: l' =>
      bind (f x) (λ y, bind (comprehension f l') (λ ys, Return (y :: ys)))
  end.

(** [sum(xs)]: starts from 0 and adds from the left. *)
Definition sum (xs : list Q) : Q := fold_left Qplus xs 0%Q.

(** [a > b] on two numbers. *)
Definition gt (a b : Q) : bool :=
  match (a ?= b)%Q with
  | Gt => true
  | _ => false
  end.

(** [a / b]: a division by zero raises. *)
Definition div (a b : Q) : result Q :=
  if Qeq_bool b 0 then Raise ZeroDivisionError else Return (a / b)%Q.

(** Rounding to the nearest integer, ties to the even one. *)
Definition round_half_even (x : Q) : Z :=
  let f := Qfloor x in
  match (x - inject_Z f ?= 1 # 2)%Q with
  | Lt => f
  | Gt => (f + 1)%Z
  | Eq => if Z.even f then f else (f + 1)%Z
  end.

(** [round(x, ndigits)]. *)
Definition round (x : Q) (ndigits : nat) : Q :=
  let p := inject_Z (10 ^ Z.of_nat ndigits) in
  (inject_Z (round_half_even (x * p)) / p)%Q.

(** [str(n)] for an [int]. *)
Definition str_int (n : Z) : string := NilZero.string_of_int (Z.to_int n).

(** [c.lower()] on one character: the letters A-Z. *)
Definition lower_ascii (c : ascii) : ascii :=
  match c with
  | Ascii b0 b1 b2 b3 b4 b5 b6 b7 =>
      let n := nat_of_ascii c in
      if (65 <=? n)%nat && (n <=? 90)%nat
      then Ascii b0 b1 b2 b3 b4 true b6 b7
      else c
  end.

(** [s.lower()]. *)
Fixpoint lower (s : string) : string :=
  match s with
  | EmptyString => EmptyString
  | String c s' => String (lower_ascii c) (lower s')
  end.

(** [s.startswith(p)]. *)
Fixpoint startswith (p s : string) : bool :=
  match p, s with
  | EmptyString, _ => true
  | String _ _, EmptyString => false
  | String a p', String b s' =>
      if Ascii.eqb a b then startswith p' s' else false
  end.

(** [sub in s] for two strings. *)
Fixpoint contains (sub s : string) : bool :=
  startswith sub s ||
  match s with
  | EmptyString => false
  | String _ s' => contains sub s'
  end.

(** [s[:n]]. *)
Fixpoint str_slice_to (n : nat) (s : string) : string :=
  match n, s with
  | O, _ => EmptyString
  | S _, EmptyString => EmptyString
  | S n', String c s' => String c (str_slice_to n' s')
  end.

(** [sep.join(parts)]. *)
Fixpoint join (sep : string) (parts : list string) : string :=
  match parts with
  | [] => EmptyString
  | [p] => p
  | p :: rest => p +:+ sep +:+ join sep rest
  end.

(** [enumerate(l, start)]. *)
Fixpoint enumerate {A : Type} (l : list A) (start : Z) : list (Z * A) :=
  match l with
  | [] => []
  | x :: l' => (start, x) :: enumerate l' (start + 1)%Z
  end.

(** The line feed and the double quote. *)
Definition nl : string := String (ascii_of_nat 10) EmptyString.
Definition dq : string := String (ascii_of_nat 34) EmptyString.

(** The lines of a triple-quoted literal, each ended by a line feed. *)
Fixpoint text (lines : list string) : string :=
  match lines with
  | [] => EmptyString
  | l :: ls => l +:+ nl +:+ text ls
  end.

End Py.

Notation "'let!' x ':=' m 'in' k" := (Py.bind m (λ x, k))
  (at level 10, x name, m at level 100, k at level 200,
   format "'[' 'let!'  x  ':='  m  'in'  '/' k ']'").

(* ===================================================================== *)
(** ** Decoded JSON *)
(* ===================================================================== *)

(** What [json.loads] returns: [None], [bool], [int], [float], [str],
    [list] or [dict] with string keys. *)
Inductive json : Type :=
  | JNull
  | JBool (b : bool)
  | JInt (z : Z)
  | JFloat (q : Q)
  | JStr (s : string)
  | JArr (l : list json)
  | JObj (m : gmap string json).

Module Json.

(** [d[key]]: only a [dict] can be indexed by a string. *)
Definition getitem (d : json) (key : string) : Py.result json :=
  match d with
  | JObj m =>
      match m !! key with
      | Some v => Py.Return v
      | None => Py.Raise (Py.KeyError key)
      end
  | _ => Py.Raise Py.TypeError
  end.

(** [d.get(key, default)]: a method of [dict] only. *)
Definition get (d : json) (key : string) (default : json) : Py.result json :=
  match d with
  | JObj m =>
      match m !! key with
      | Some v => Py.Return v
      | None => Py.Return default
      end
  | _ => Py.Raise Py.AttributeError
  end.

(** [json.loads(content)], the text being given by what it decodes to:
    [None] for a text that is not a JSON document. *)
Definition loads (content : option json) : Py.result json :=
  match content with
  | Some v => Py.Return v
  | None => Py.Raise Py.JSONDecodeError
  end.

(** Iterating over a decoded value: the elements of a list, the
    characters of a string, the keys of a dict; anything else is not
    iterable. *)
Definition iter (v : json) : Py.result (list json) :=
  match v with
  | JArr l => Py.Return l
  | JStr s => Py.Return ((λ c, JStr (String c EmptyString)) <$> list_ascii_of_string s)
  | JObj m => Py.Return ((λ kv, JStr kv.1) <$> map_to_list m)
  | _ => Py.Raise Py.TypeError
  end.

(** [**item]: the keyword arguments of a call; [item] must be a mapping. *)
Definition kwargs (item : json) : Py.result (gmap string json) :=
  match item with
  | JObj m => Py.Return m
  | _ => Py.Raise Py.TypeError
  end.

End Json.

(* ===================================================================== *)
(** ** models.py *)
(* ===================================================================== *)

(** How pydantic converts one decoded value to a field of type [str],
    [int] or [float].  A value that already has the field's type is taken
    as it is, and an [int] is a valid [float]; which other values are
    converted (numeric strings, booleans, floats without a fractional
    part) is left to the instance. *)
Class Pydantic : Type := {
  validate_str : json → option string;
  validate_int : json → option Z;
  validate_float : json → option Q;
  validate_str_str : ∀ s, validate_str (JStr s) = Some s;
  validate_int_int : ∀ z, validate_int (JInt z) = Some z;
  validate_float_float : ∀ q, validate_float (JFloat q) = Some q;
  validate_float_int : ∀ z, validate_float (JInt z) = Some (inject_Z z);
}.

(** The least permissive validators: nothing is converted beyond what
    [Pydantic] requires. *)
#[export] Instance strict : Pydantic := {|
  validate_str v := match v with JStr s => Some s | _ => None end;
  validate_int v := match v with JInt z => Some z | _ => None end;
  validate_float v :=
    match v with
    | JFloat q => Some q
    | JInt z => Some (inject_Z z)
    | _ => None
    end;
  validate_str_str _ := eq_refl;
  validate_int_int _ := eq_refl;
  validate_float_float _ := eq_refl;
  validate_float_int _ := eq_refl;
|}.

Module Field.
Section fields.
Context `{Pydantic}.

(** A field without a default: absent or invalid is a [ValidationError]. *)
Definition required {A : Type} (validate : json → option A)
    (kw : gmap string json) (name : string) : Py.result A :=
  match kw !! name with
  | Some v =>
      match validate v with
      | Some a => Py.Return a
      | None => Py.Raise Py.ValidationError
      end
  | None => Py.Raise Py.ValidationError
  end.

(** A field [Optional[T] = None]: absent or [None] gives [None]. *)
Definition optional {A : Type} (validate : json → option A)
    (kw : gmap string json) (name : string) : Py.result (option A) :=
  match kw !! name with
  | None | Some JNull => Py.Return None
  | Some v =>
      match validate v with
      | Some a => Py.Return (Some a)
      | None => Py.Raise Py.ValidationError
      end
  end.

(** [List[str]]. *)
Definition validate_list_str (v : json) : option (list string) :=
  match v with
  | JArr l => mapM validate_str l
  | _ => None
  end.

(** [Dict[str, Any]]. *)
Definition validate_dict (v : json) : option (gmap string json) :=
  match v with
  | JObj m => Some m
  | _ => None
  end.

End fields.
End Field.

(** [class ProjectType(str, Enum)]. *)
Inductive ProjectType : Type := GARAGE | CLOSET | PANTRY | MUDROOM | HOME_OFFICE.

Module ProjectTypes.

(** [project_type.value]. *)
Definition value (p : ProjectType) : string :=
  match p with
  | GARAGE => "garage"
  | CLOSET => "closet"
  | PANTRY => "pantry"
  | MUDROOM => "mudroom"
  | HOME_OFFICE => "home_office"
  end.

Definition members : list ProjectType :=
  [GARAGE; CLOSET; PANTRY; MUDROOM; HOME_OFFICE].

(** Validation of an enum field: the input must be the value of a member. *)
Definition validate (v : json) : option ProjectType :=
  match v with
  | JStr s => List.find (λ p, String.eqb (value p) s) members
  | _ => None
  end.

End ProjectTypes.

Module QuoteLineItem.

Record t : Type := {
  sku : string;
  description : string;
  quantity : Z;
  unit_price : Q;
  total : Q;
  category : string;            (* "base", "upgrade", "upsell" *)
  reasoning : option string;
}.

(** keyword construction of a [QuoteLineItem]. *)
Definition new `{Pydantic} (kw : gmap string json) : Py.result t :=
  let! sku := Field.required validate_str kw "sku" in
  let! description := Field.required validate_str kw "description" in
  let! quantity := Field.required validate_int kw "quantity" in
  let! unit_price := Field.required validate_float kw "unit_price" in
  let! total := Field.required validate_float kw "total" in
  let! category := Field.required validate_str kw "category" in
  let! reasoning := Field.optional validate_str kw "reasoning" in
  Py.Return {| sku := sku; description := description; quantity := quantity;
               unit_price := unit_price; total := total;
               category := category; reasoning := reasoning |}.

End QuoteLineItem.

Module QuoteRequest.

Record t : Type := {
  tenant_id : string;
  customer_id : option string;
  project_type : ProjectType;
  customer_notes : string;
  square_footage : option Q;
  ceiling_height : option Q;
  budget_range : option string;  (* "budget", "standard", "premium" *)
  site_photos : option (list string);
  customer_context : option (gmap string json);
}.

(** keyword construction of a [QuoteRequest]. *)
Definition new `{Pydantic} (kw : gmap string json) : Py.result t :=
  let! tenant_id := Field.required validate_str kw "tenant_id" in
  let! customer_id := Field.optional validate_str kw "customer_id" in
  let! project_type := Field.required ProjectTypes.validate kw "project_type" in
  let! customer_notes := Field.required validate_str kw "customer_notes" in
  let! square_footage := Field.optional validate_float kw "square_footage" in
  let! ceiling_height := Field.optional validate_float kw "ceiling_height" in
  let! budget_range := Field.optional validate_str kw "budget_range" in
  let! site_photos := Field.optional Field.validate_list_str kw "site_photos" in
  let! customer_context := Field.optional Field.validate_dict kw "customer_context" in
  Py.Return {| tenant_id := tenant_id; customer_id := customer_id;
               project_type := project_type; customer_notes := customer_notes;
               square_footage := square_footage; ceiling_height := ceiling_height;
               budget_range := budget_range; site_photos := site_photos;
               customer_context := customer_context |}.

End QuoteRequest.

Module QuoteResponse.

Record t : Type := {
  quote_id : string;
  tenant_id : string;
  line_items : list QuoteLineItem.t;
  subtotal : Q;
  tax : Q;
  total : Q;
  estimated_margin_percent : Q;
  reasoning : string;
  upsell_suggestions : list QuoteLineItem.t;
  similar_quotes_used : Z;
  confidence_score : Q;          (* 0.0 to 1.0 *)
  generated_at : Z;              (* default_factory=datetime.utcnow *)
}.

(** Keyword construction of a [QuoteResponse], as [suggest_quote] calls
    it: the line items are [QuoteLineItem] instances and the amounts are
    numbers already; [reasoning] and [confidence_score] come from the
    decoded document and are validated here. *)
Definition new `{Pydantic} (quote_id tenant_id : string)
    (line_items : list QuoteLineItem.t)
    (subtotal tax total estimated_margin_percent : Q) (reasoning : json)
    (upsell_suggestions : list QuoteLineItem.t) (similar_quotes_used : Z)
    (confidence_score : json) (utcnow : Z) : Py.result t :=
  match validate_str reasoning, validate_float confidence_score with
  | Some reasoning, Some confidence_score =>
      Py.Return {| quote_id := quote_id; tenant_id := tenant_id;
                   line_items := line_items; subtotal := subtotal; tax := tax;
                   total := total;
                   estimated_margin_percent := estimated_margin_percent;
                   reasoning := reasoning;
                   upsell_suggestions := upsell_suggestions;
                   similar_quotes_used := similar_quotes_used;
                   confidence_score := confidence_score;
                   generated_at := utcnow |}
  | _, _ => Py.Raise Py.ValidationError
  end.

End QuoteResponse.

Module HistoricalQuote.

Record t : Type := {
  quote_id : string;
  tenant_id : string;
  project_type : ProjectType;
  customer_notes : string;
  square_footage : option Q;
  line_items : list QuoteLineItem.t;
  total_amount : Q;
  won : bool;
  time_to_close_days : option Z;
  sales_rep_notes : option string;
  created_at : Z;
}.

End HistoricalQuote.

Module CatalogItem.

Record t : Type := {
  catalog_item_id : string;
  tenant_id : string;
  sku : string;
  name : string;
  description : string;
  base_price : Q;
  category : string;
  typical_quantity_range : option string;  (* "1-5", "10-20" *)
  pairs_well_with : option (list string);  (* list of SKUs *)
}.

End CatalogItem.

(* ===================================================================== *)
(** ** context_builder.py *)
(* ===================================================================== *)

(** How Python prints a [float]: [str(x)], [format(x, ".2f")] and
    [format(x, ",.2f")]. *)
Class FloatFormat : Type := {
  str_float : Q → string;
  format_2f : Q → string;
  format_comma_2f : Q → string;
}.

(** Decimal printing of a rational: what Python prints for a float whose
    decimal expansion is short. *)
Module Decimal.

Fixpoint zeros (n : nat) : string :=
  match n with
  | O => EmptyString
  | S n' => String "0" (zeros n')
  end.

(** The digits of [s] grouped by three with commas. *)
Fixpoint commas (s : string) : string :=
  match s with
  | EmptyString => EmptyString
  | String c s' =>
      let n := String.length s' in
      String c (if (0 <? n)%nat && (n mod 3 =? 0)%nat
                then "," +:+ commas s' else commas s')
  end.

(** [x] with [d] decimals, rounded half to even: sign, integer part,
    fractional part. *)
Definition fixed (d : nat) (x : Q) : string * string * string :=
  let p := (10 ^ Z.of_nat d)%Z in
  let k := Py.round_half_even (x * inject_Z p) in
  let a := Z.abs k in
  let frac := Py.str_int (a mod p) in
  (if (k <? 0)%Z then "-" else EmptyString,
   Py.str_int (a / p),
   zeros (d - String.length frac) +:+ frac).

Definition show (grouped : bool) (d : nat) (x : Q) : string :=
  let '(sign, int, frac) := fixed d x in
  sign +:+ (if grouped then commas int else int) +:+ "." +:+ frac.

(** The least number of decimals, from [d] on, that prints [x] exactly;
    17 when [fuel] runs out. *)
Fixpoint decimals (fuel d : nat) (x : Q) : nat :=
  match fuel with
  | O => 17
  | S fuel' =>
      let y := (x * inject_Z (10 ^ Z.of_nat d))%Q in
      if Qeq_bool y (inject_Z (Qfloor y)) then d else decimals fuel' (S d) x
  end.

End Decimal.

#[export] Instance decimal : FloatFormat := {|
  str_float x := Decimal.show false (Decimal.decimals 16 1 x) x;
  format_2f x := Decimal.show false 2 x;
  format_comma_2f x := Decimal.show true 2 x;
|}.

(** How Python prints a decoded value inside an f-string, [str(v)]: an
    [int] prints as its decimal digits. *)
Class ValueFormat : Type := {
  str_value : json → string;
  str_value_int : ∀ z, str_value (JInt z) = Py.str_int z;
}.

(** The printing of the values that are not containers. *)
#[export] Instance scalar_values : ValueFormat := {|
  str_value v :=
    match v with
    | JNull => "None"
    | JBool true => "True"
    | JBool false => "False"
    | JInt z => Py.str_int z
    | JFloat q => str_float q
    | JStr s => s
    | JArr _ | JObj _ => EmptyString
    end;
  str_value_int _ := eq_refl;
|}.

Module ContextBuilder.

(** A literal of the source in which a backquote stands for the double
    quote of the Python text. *)
Fixpoint lit (s : string) : string :=
  match s with
  | EmptyString => EmptyString
  | String c s' =>
      String (if Ascii.eqb c (ascii_of_nat 96) then ascii_of_nat 34 else c) (lit s')
  end.

(** [x or default] inside an f-string, for an optional [str]: [None] and
    the empty string are false. *)
Definition str_or (x : option string) (default : string) : string :=
  match x with
  | Some (String c s) => String c s
  | Some EmptyString | None => default
  end.

Section builder.
Context `{FloatFormat}.

(** [x or default] inside an f-string, for an optional [float]: [None]
    and zero are false. *)
Definition float_or (x : option Q) (default : string) : string :=
  match x with
  | Some q => if Qeq_bool q 0 then default else str_float q
  | None => default
  end.

(** The predicate of both catalog filters:
    [request.project_type.value in item.category.lower()]. *)
Definition relevant (request : QuoteRequest.t) (item : CatalogItem.t) : bool :=
  Py.contains (ProjectTypes.value (QuoteRequest.project_type request))
              (Py.lower (CatalogItem.category item)).

Definition items_summary (quote : HistoricalQuote.t) : string :=
  Py.join ", "
    ((λ item, Py.str_int (QuoteLineItem.quantity item) +:+ "x " +:+
              QuoteLineItem.sku item)
       <$> take 5 (HistoricalQuote.line_items quote)).

Definition format_similar_quote (i : Z) (quote : HistoricalQuote.t) : string :=
  Py.text [
    EmptyString;
    "Quote " +:+ Py.str_int i +:+ ":";
    "  - Project: " +:+ ProjectTypes.value (HistoricalQuote.project_type quote) +:+
      " (" +:+ float_or (HistoricalQuote.square_footage quote) "N/A" +:+ " sqft)";
    "  - Customer: " +:+ Py.dq +:+
      Py.str_slice_to 100 (HistoricalQuote.customer_notes quote) +:+ "..." +:+ Py.dq;
    "  - Items: " +:+ items_summary quote;
    "  - Total: $" +:+ format_comma_2f (HistoricalQuote.total_amount quote);
    "  - Result: " +:+ (if HistoricalQuote.won quote then "WON" else "LOST")
  ].

Definition _format_similar_quotes (quotes : list HistoricalQuote.t) : string :=
  match quotes with
  | [] => "No similar quotes found."
  | _ =>
      Py.join Py.nl
        ((λ iq, format_similar_quote iq.1 iq.2) <$> Py.enumerate (take 10 quotes) 1)
  end.

Definition format_catalog_item (item : CatalogItem.t) : string :=
  Py.text [
    EmptyString;
    "- SKU: " +:+ CatalogItem.sku item;
    "  Name: " +:+ CatalogItem.name item;
    "  Description: " +:+ CatalogItem.description item;
    "  Price: $" +:+ format_2f (CatalogItem.base_price item);
    "  Typical Qty: " +:+ str_or (CatalogItem.typical_quantity_range item) "Varies"
  ].

Definition _format_catalog (catalog : list CatalogItem.t) : string :=
  match catalog with
  | [] => "No catalog items available."
  | _ => Py.join Py.nl (format_catalog_item <$> catalog)
  end.

(** The part of the suggestion prompt before the similar quotes. *)
Definition suggest_quote_head (request : QuoteRequest.t) : string :=
  Py.text [
    "You are an expert estimator for " +:+ QuoteRequest.tenant_id request +:+ ".";
    EmptyString;
    "# CUSTOMER REQUEST";
    "Project Type: " +:+ ProjectTypes.value (QuoteRequest.project_type request);
    "Customer Notes: " +:+ QuoteRequest.customer_notes request;
    "Square Footage: " +:+ float_or (QuoteRequest.square_footage request) "Not specified";
    "Ceiling Height: " +:+ float_or (QuoteRequest.ceiling_height request) "Not specified";
    "Budget Range: " +:+ str_or (QuoteRequest.budget_range request) "Not specified";
    EmptyString;
    "# SIMILAR PAST QUOTES"
  ].

(** The part between the similar quotes and the catalog. *)
Definition suggest_quote_middle : string :=
  Py.text [
    EmptyString;
    EmptyString;
    "# AVAILABLE CATALOG ITEMS"
  ].

(** The part after the catalog: the task, the output shape, the rules. *)
Definition suggest_quote_tail : string :=
  Py.text (lit <$> [
    EmptyString;
    EmptyString;
    "# TASK";
    "Generate a detailed quote suggestion using ONLY valid JSON:";
    EmptyString;
    "{";
    "  `line_items`: [";
    "    {";
    "      `sku`: `EXACT_SKU_FROM_CATALOG`,";
    "      `description`: `User-friendly description`,";
    "      `quantity`: 5,";
    "      `unit_price`: 299.99,";
    "      `total`: 1499.95,";
    "      `category`: `base`,";
    "      `reasoning`: `Why this item and quantity`";
    "    }";
    "  ],";
    "  `reasoning`: `Overall quote strategy`,";
    "  `upsell_suggestions`: [],";
    "  `confidence_score`: 0.85";
    "}";
    EmptyString;
    "RULES:";
    "1. Use only SKUs from the catalog.";
    "2. Base quantities on square footage and project type.";
    "3. Reference patterns from similar quotes.";
    "4. Include reasoning for each line item.";
    "5. Suggest 2–3 upsells.";
    "6. Return ONLY valid JSON."
  ]).

Definition build_suggest_quote_prompt (request : QuoteRequest.t)
    (similar_quotes : list HistoricalQuote.t) (catalog : list CatalogItem.t)
  : string :=
  let relevant_catalog := List.filter (relevant request) catalog in
  suggest_quote_head request +:+
  _format_similar_quotes similar_quotes +:+
  suggest_quote_middle +:+
  _format_catalog relevant_catalog +:+
  suggest_quote_tail.

(** The part of the upsell prompt before the catalog. *)
Definition upsell_head (request : QuoteRequest.t) : string :=
  Py.text [
    "You are an expert sales engineer for " +:+ QuoteRequest.tenant_id request +:+ ".";
    EmptyString;
    "# CUSTOMER REQUEST";
    "Project Type: " +:+ ProjectTypes.value (QuoteRequest.project_type request);
    "Customer Notes: " +:+ QuoteRequest.customer_notes request;
    EmptyString;
    "# AVAILABLE CATALOG ITEMS"
  ].

(** The part after the catalog. *)
Definition upsell_tail : string :=
  Py.text (lit <$> [
    EmptyString;
    EmptyString;
    "# TASK";
    "Suggest 2–5 upsell items that would meaningfully improve the project outcome.";
    EmptyString;
    "Return ONLY valid JSON:";
    EmptyString;
    "{";
    "  `upsell_items`: [";
    "    {";
    "      `sku`: `EXACT_SKU_FROM_CATALOG`,";
    "      `description`: `Short description`,";
    "      `quantity`: 1,";
    "      `unit_price`: 199.99,";
    "      `total`: 199.99,";
    "      `category`: `upsell`,";
    "      `reasoning`: `Why this is a valuable upgrade`";
    "    }";
    "  ],";
    "  `reasoning`: `Overall upsell strategy`,";
    "  `confidence_score`: 0.85";
    "}"
  ]).

Definition build_upsell_prompt (request : QuoteRequest.t)
    (catalog : list CatalogItem.t) : string :=
  let relevant_catalog := List.filter (relevant request) catalog in
  upsell_head request +:+
  _format_catalog relevant_catalog +:+
  upsell_tail.

End builder.

(** What [_format_similar_quotes] reads of a quote: five line items and
    a hundred characters of the notes. *)
Definition read_of (quote : HistoricalQuote.t) : HistoricalQuote.t :=
  {| HistoricalQuote.quote_id := HistoricalQuote.quote_id quote;
     HistoricalQuote.tenant_id := HistoricalQuote.tenant_id quote;
     HistoricalQuote.project_type := HistoricalQuote.project_type quote;
     HistoricalQuote.customer_notes :=
       Py.str_slice_to 100 (HistoricalQuote.customer_notes quote);
     HistoricalQuote.square_footage := HistoricalQuote.square_footage quote;
     HistoricalQuote.line_items := take 5 (HistoricalQuote.line_items quote);
     HistoricalQuote.total_amount := HistoricalQuote.total_amount quote;
     HistoricalQuote.won := HistoricalQuote.won quote;
     HistoricalQuote.time_to_close_days := HistoricalQuote.time_to_close_days quote;
     HistoricalQuote.sales_rep_notes := HistoricalQuote.sales_rep_notes quote;
     HistoricalQuote.created_at := HistoricalQuote.created_at quote |}.

Section pricing.
Context `{ValueFormat}.

(** [rules.get(key, default)] printed inside the f-string. *)
Definition rule (rules : gmap string json) (key : string) (dflt : Z) : string :=
  str_value (default (JInt dflt) (rules !! key)).

Definition _format_pricing_rules (rules : gmap string json) : string :=
  if decide (size rules = 0%nat) then "Standard pricing applies."
  else
    Py.text [
      EmptyString;
      "- Target Margin: " +:+ rule rules "target_margin_percent" 40 +:+ "%";
      "- Minimum Margin: " +:+ rule rules "minimum_margin_percent" 25 +:+ "%";
      "- Volume Discount: " +:+ rule rules "volume_discount_threshold" 10 +:+
        " items @ " +:+ rule rules "volume_discount_percent" 5 +:+ "%"
    ].

(** The part of the pricing prompt before the rules. *)
Definition optimize_pricing_head (request : QuoteRequest.t) : string :=
  Py.text [
    "You are a pricing strategist for " +:+ QuoteRequest.tenant_id request +:+ ".";
    EmptyString;
    "# CUSTOMER REQUEST";
    "Project Type: " +:+ ProjectTypes.value (QuoteRequest.project_type request);
    "Customer Notes: " +:+ QuoteRequest.customer_notes request;
    "Budget Range: " +:+ str_or (QuoteRequest.budget_range request) "Not specified";
    EmptyString;
    "# PRICING RULES"
  ].

(** The part after the rules. *)
Definition optimize_pricing_tail : string :=
  Py.text (lit <$> [
    EmptyString;
    EmptyString;
    "# TASK";
    "Recommend an optimized price and margin strategy.";
    EmptyString;
    "Return ONLY valid JSON:";
    EmptyString;
    "{";
    "  `recommended_price`: 1234.56,";
    "  `target_margin_percent`: 40,";
    "  `reasoning`: `Why this pricing strategy is optimal`,";
    "  `adjustments`: {";
    "    `seasonal_multiplier`: 1.0,";
    "    `volume_discount_applied`: false";
    "  },";
    "  `confidence_score`: 0.85";
    "}"
  ]).

Definition build_optimize_pricing_prompt (request : QuoteRequest.t)
    (pricing_rules : gmap string json) : string :=
  optimize_pricing_head request +:+
  _format_pricing_rules pricing_rules +:+
  optimize_pricing_tail.

End pricing.
End ContextBuilder.

(* ===================================================================== *)
(** ** The tenacity decorator *)
(* ===================================================================== *)

Module Tenacity.

(** What a decorated call does, in order. *)
Inductive event : Type :=
  | Attempt (attempt_number : nat)
  | Sleep (seconds : Z).

(** [stop_after_attempt(max_attempt_number)]. *)
Definition stop_after_attempt (max_attempt_number : nat) (attempt_number : nat)
  : bool :=
  (max_attempt_number <=? attempt_number)%nat.

(** [wait_exponential(multiplier, min, max)], base 2: the seconds to wait
    after the attempt [attempt_number],
    [max(max(0, min), min(multiplier * 2 ** (attempt_number - 1), max))]. *)
Definition wait_exponential (multiplier min max : Z) (attempt_number : nat) : Z :=
  let exp := (2 ^ (Z.of_nat attempt_number - 1))%Z in
  let result := (multiplier * exp)%Z in
  Z.max (Z.max 0 min) (Z.min result max).

(** [@retry(stop=..., wait=...)]: call [fn]; return what it returns; on
    any exception either give up with [RetryError] or sleep and call
    again.  [fn] receives the number of the attempt; [fuel] bounds the
    iterations of the loop. *)
Fixpoint retry {A : Type} (stop : nat → bool) (wait : nat → Z)
    (fn : nat → Py.result A) (fuel : nat) (attempt_number : nat)
  : option (Py.result A * list event) :=
  match fuel with
  | O => None
  | S fuel' =>
      match fn attempt_number with
      | Py.Return a => Some (Py.Return a, [Attempt attempt_number])
      | Py.Raise e =>
          if stop attempt_number
          then Some (Py.Raise (Py.RetryError e), [Attempt attempt_number])
          else
            match retry stop wait fn fuel' (S attempt_number) with
            | Some (r, events) =>
                Some (r, Attempt attempt_number
                           :: Sleep (wait attempt_number) :: events)
            | None => None
            end
      end
  end.

(** The events of a call that makes [n] attempts: a sleep of [wait k]
    after each attempt [k] but the last. *)
Definition schedule (wait : nat → Z) (n : nat) : list event :=
  match n with
  | O => []
  | S m =>
      flat_map (λ k, [Attempt k; Sleep (wait k)]) (seq 1 m) ++ [Attempt (S m)]
  end.

(** The attempts made and the sleeps taken, read off the events. *)
Definition attempts (events : list event) : list nat :=
  omap (λ e, match e with Attempt n => Some n | Sleep _ => None end) events.

Definition sleeps (events : list event) : list Z :=
  omap (λ e, match e with Sleep s => Some s | Attempt _ => None end) events.

End Tenacity.

(* ===================================================================== *)
(** ** quote_generator.py *)
(* ===================================================================== *)

Module QuoteGenerator.

(** The answer of [client.chat.completions.create]: the content of the
    first choice and the creation time. *)
Record ChatCompletion : Type := {
  content : option json;
  created : Z;
}.

(** What one attempt meets: the model behind the client, as a function of
    the user prompt, and the clock. *)
Record world : Type := {
  create : string → Py.result ChatCompletion;
  utcnow : Z;
}.

(** The two [except] clauses of [suggest_quote]: a decoding error is
    replaced by a [ValueError], anything else is raised again. *)
Definition handler {A : Type} (r : Py.result A) : Py.result A :=
  match r with
  | Py.Raise Py.JSONDecodeError => Py.Raise (Py.ValueError "AI returned invalid JSON")
  | _ => r
  end.

Section generator.
Context `{Pydantic} `{FloatFormat}.

(** The comprehension that builds [QuoteLineItem]s from decoded items. *)
Definition build_line_items (items : json) : Py.result (list QuoteLineItem.t) :=
  let! items := Json.iter items in
  Py.comprehension
    (λ item, let! kw := Json.kwargs item in QuoteLineItem.new kw) items.

(** [built] holds one line item for each decoded item of [items], in the
    same order, each with the SKU that its decoded item gives. *)
Definition keeps_skus (items : json) (built : list QuoteLineItem.t) : Prop :=
  ∃ decoded,
    Json.iter items = Py.Return decoded ∧
    Forall2 (λ j li, ∃ kw v, j = JObj kw ∧ kw !! "sku" = Some v ∧
                             validate_str v = Some (QuoteLineItem.sku li))
            decoded built.

(** The body of [suggest_quote], one attempt. *)
Definition suggest_quote_body (w : world) (request : QuoteRequest.t)
    (similar_quotes : list HistoricalQuote.t) (catalog : list CatalogItem.t)
  : Py.result QuoteResponse.t :=
  let prompt :=
    ContextBuilder.build_suggest_quote_prompt request similar_quotes catalog in
  handler (
    let! response := create w prompt in
    let! quote_data := Json.loads (content response) in
    (* Build line items *)
    let! items := Json.getitem quote_data "line_items" in
    let! line_items := build_line_items items in
    let subtotal := Py.sum (QuoteLineItem.total <$> line_items) in
    let tax := (subtotal * 0.0825)%Q in
    let total := (subtotal + tax)%Q in
    (* Estimate margin *)
    let cost := Py.sum ((λ item, QuoteLineItem.total item * 0.6)%Q <$> line_items) in
    let! margin_percent :=
      if Py.gt subtotal 0
      then (let! ratio := Py.div (subtotal - cost) subtotal in
            Py.Return (ratio * 100)%Q)
      else Py.Return 0%Q in
    let! reasoning := Json.get quote_data "reasoning" (JStr EmptyString) in
    let! upsells := Json.get quote_data "upsell_suggestions" (JArr []) in
    let! upsell_suggestions := build_line_items upsells in
    let! confidence_score := Json.get quote_data "confidence_score" (JFloat 0.7) in
    QuoteResponse.new
      ("quote_" +:+ QuoteRequest.tenant_id request +:+ "_" +:+
         Py.str_int (created response))
      (QuoteRequest.tenant_id request)
      line_items subtotal tax total (Py.round margin_percent 2)
      reasoning upsell_suggestions (Z.of_nat (length similar_quotes))
      confidence_score (utcnow w)).

(** [suggest_quote] as decorated:
    [@retry(stop=stop_after_attempt(3),
            wait=wait_exponential(multiplier=1, min=2, max=10))].
    [worlds n] is what the attempt number [n] meets. *)
Definition suggest_quote (worlds : nat → world) (request : QuoteRequest.t)
    (similar_quotes : list HistoricalQuote.t) (catalog : list CatalogItem.t)
    (fuel : nat) : option (Py.result QuoteResponse.t * list Tenacity.event) :=
  Tenacity.retry (Tenacity.stop_after_attempt 3) (Tenacity.wait_exponential 1 2 10)
    (λ n, suggest_quote_body (worlds n) request similar_quotes catalog)
    fuel 1.

End generator.
End QuoteGenerator.

(* ===================================================================== *)
(** ** The margin of quote_generator.py in binary64 *)
(* ===================================================================== *)

(** The lines of [suggest_quote] that estimate the margin, on the floats
    of the machine: the totals of the line items are binary64 numbers and
    every operation rounds as IEEE 754 does. *)
Module Binary64.
Import Floats.

(** [sum(xs)] of floats: from 0, adding from the left, as CPython up to
    3.11 does.  (CPython 3.12 and later carry a compensation term besides;
    on a list of one element the result is the same.) *)
Definition sum (xs : list float) : float := fold_left PrimFloat.add xs 0%float.

(** [a / b]: a division by zero raises. *)
Definition div (a b : float) : Py.result float :=
  if PrimFloat.eqb b 0 then Py.Raise Py.ZeroDivisionError
  else Py.Return (PrimFloat.div a b).

(** The rational that a finite float is. *)
Definition exact (x : float) : option Q :=
  match Prim2SF x with
  | S754_zero _ => Some 0%Q
  | S754_finite s m e =>
      let v := (inject_Z (Z.pos m) *
                (if (0 <=? e)%Z then inject_Z (2 ^ e)
                 else 1 # Z.to_pos (2 ^ (- e))))%Q in
      Some (if s then (- v)%Q else v)
  | S754_infinity _ | S754_nan => None
  end.

(** The float of an integer below 2^53 in size. *)
Definition of_Z (k : Z) : float :=
  let a := PrimFloat.of_uint63 (Uint63.of_Z (Z.abs k)) in
  if (k <? 0)%Z then PrimFloat.opp a else a.

(** [round(x, ndigits)] for a float and up to 15 digits: the float
    nearest to the decimal with [ndigits] places nearest to [x], ties to
    even; an infinity or a NaN is returned as it is, and so is a float too
    large to have such places. *)
Definition round (x : float) (ndigits : nat) : float :=
  match exact x with
  | None => x
  | Some q =>
      let p := (10 ^ Z.of_nat ndigits)%Z in
      let k := Py.round_half_even (q * inject_Z p) in
      if (2 ^ 53 <=? Z.abs k)%Z then x
      else if (k =? 0)%Z then (if PrimFloat.get_sign x then (-0)%float else 0%float)
      else PrimFloat.div (of_Z k) (of_Z p)
  end.

(** [cost = sum(item.total * 0.6 for item in line_items)]. *)
Definition cost (totals : list float) : float :=
  sum ((λ total, PrimFloat.mul total 0.6%float) <$> totals).

(** [((subtotal - cost) / subtotal * 100) if subtotal > 0 else 0]. *)
Definition margin_percent (subtotal cost : float) : Py.result float :=
  if PrimFloat.ltb 0 subtotal
  then (let! ratio := div (PrimFloat.sub subtotal cost) subtotal in
        Py.Return (PrimFloat.mul ratio 100%float))
  else Py.Return 0%float.

(** [estimated_margin_percent=round(margin_percent, 2)], from the totals
    of the line items. *)
Definition estimated_margin_percent (totals : list float) : Py.result float :=
  let subtotal := sum totals in
  let! margin_percent := margin_percent subtotal (cost totals) in
  Py.Return (round margin_percent 2).

End Binary64.

(* ===================================================================== *)
(** ** Concrete runs *)
(* ===================================================================== *)

Module Scenario.
Import QuoteGenerator.

(** A decoded line item with the seven keys of the prompt's example. *)
Definition item (sku : string) (quantity : Z) (unit_price total : Q)
    (category : string) : json :=
  JObj (<["sku" := JStr sku]> (<["description" := JStr "item"]>
       (<["quantity" := JInt quantity]> (<["unit_price" := JFloat unit_price]>
       (<["total" := JFloat total]> (<["category" := JStr category]>
       (<["reasoning" := JStr "fits"]> ∅))))))).

(** A decoded answer with every key of the prompt's example. *)
Definition answer (line_items upsells : list json) (confidence : Q) : json :=
  JObj (<["line_items" := JArr line_items]>
       (<["reasoning" := JStr "strategy"]>
       (<["upsell_suggestions" := JArr upsells]>
       (<["confidence_score" := JFloat confidence]> ∅)))).

(** A model that gives the same document whatever the prompt. *)
Definition answering (doc : json) : world :=
  {| create := λ _, Py.Return {| content := Some doc; created := 1700000000 |};
     utcnow := 1700000001 |}.

(** A model call that fails in transport, and one whose text is not JSON. *)
Definition unreachable : world :=
  {| create := λ _, Py.Raise Py.APIError; utcnow := 1700000001 |}.

Definition garbled : world :=
  {| create := λ _, Py.Return {| content := None; created := 1700000000 |};
     utcnow := 1700000001 |}.

Definition request : QuoteRequest.t :=
  {| QuoteRequest.tenant_id := "acme";
     QuoteRequest.customer_id := None;
     QuoteRequest.project_type := CLOSET;
     QuoteRequest.customer_notes := "8x8 closet";
     QuoteRequest.square_footage := Some 64%Q;
     QuoteRequest.ceiling_height := None;
     QuoteRequest.budget_range := None;
     QuoteRequest.site_photos := None;
     QuoteRequest.customer_context := None |}.

Definition shelf : CatalogItem.t :=
  {| CatalogItem.catalog_item_id := "1";
     CatalogItem.tenant_id := "acme";
     CatalogItem.sku := "SHELF-8FT";
     CatalogItem.name := "Shelf";
     CatalogItem.description := "8 ft shelf";
     CatalogItem.base_price := 150%Q;
     CatalogItem.category := "closet-accessories";
     CatalogItem.typical_quantity_range := None;
     CatalogItem.pairs_well_with := None |}.

Definition catalog : list CatalogItem.t := [shelf].

(** The model prices two shelves of the catalog. *)
Definition shelves : json :=
  answer [item "SHELF-8FT" 2 150 300 "base"] [] 0.85.

(** The model prices SKUs the catalog does not have. *)
Definition ghosts : json :=
  answer [item "GHOST-1" 1 75 75 "base"] [item "GHOST-2" 1 20 20 "upsell"] 0.85.


(** A confidence outside the unit interval. *)
Definition overconfident : json := answer [] [] 1.5.

(** A line whose total is negative. *)
Definition refund : json :=
  answer [item "SHELF-8FT" 1 (-100) (-100) "base"] [] 0.85.

(** Two lines whose totals add up to 1000. *)
Definition thousand : json :=
  answer [item "SHELF-8FT" 2 150 300 "base"; item "SHELF-8FT" 1 700 700 "upgrade"]
         [] 0.85.

(** An item without its SKU: the constructor rejects it. *)
Definition incomplete : json :=
  answer [JObj (<["description" := JStr "item"]> ∅)] [] 0.85.

(** Transport failure, then a text that is not JSON, then a good answer. *)
Definition flaky (n : nat) : world :=
  match n with
  | 1%nat => unreachable
  | 2%nat => garbled
  | _ => answering shelves
  end.

(** What [suggest_quote] returns, when it returns. *)
Definition returned (run : option (Py.result QuoteResponse.t * list Tenacity.event))
  : option QuoteResponse.t :=
  match run with
  | Some (Py.Return r, _) => Some r
  | _ => None
  end.

(** The response to [request] when the model answers [doc] at every
    attempt. *)
Definition quoted (doc : json) : option QuoteResponse.t :=
  returned (suggest_quote (λ _, answering doc) request [] catalog 3).

(** A request body as [req.get_json()] gives it. *)
Definition body (square_footage ceiling_height : json) : gmap string json :=
  <["tenant_id" := JStr "acme"]> (<["project_type" := JStr "closet"]>
  (<["customer_notes" := JStr "8x8 closet"]>
  (<["square_footage" := square_footage]>
  (<["ceiling_height" := ceiling_height]> ∅)))).

End Scenario.

(* ===================================================================== *)
(** ** More concrete runs *)
(* ===================================================================== *)

Module Cases.
Import QuoteGenerator.

(** A document with no key at all, and one with [line_items] alone. *)
Definition bare : json := JObj ∅.

Definition terse : json := JObj (<["line_items" := JArr []]> ∅).


(** A document that is a list, not a dict. *)
Definition listed : json := JArr [].


(** [request] with other optional fields. *)
Definition sized (request : QuoteRequest.t)
    (square_footage ceiling_height : option Q) (budget_range : option string)
  : QuoteRequest.t :=
  {| QuoteRequest.tenant_id := QuoteRequest.tenant_id request;
     QuoteRequest.customer_id := QuoteRequest.customer_id request;
     QuoteRequest.project_type := QuoteRequest.project_type request;
     QuoteRequest.customer_notes := QuoteRequest.customer_notes request;
     QuoteRequest.square_footage := square_footage;
     QuoteRequest.ceiling_height := ceiling_height;
     QuoteRequest.budget_range := budget_range;
     QuoteRequest.site_photos := QuoteRequest.site_photos request;
     QuoteRequest.customer_context := QuoteRequest.customer_context request |}.

(** A line item with its [reasoning] set. *)
Definition reasoned (item : QuoteLineItem.t) (reasoning : option string)
  : QuoteLineItem.t :=
  {| QuoteLineItem.sku := QuoteLineItem.sku item;
     QuoteLineItem.description := QuoteLineItem.description item;
     QuoteLineItem.quantity := QuoteLineItem.quantity item;
     QuoteLineItem.unit_price := QuoteLineItem.unit_price item;
     QuoteLineItem.total := QuoteLineItem.total item;
     QuoteLineItem.category := QuoteLineItem.category item;
     QuoteLineItem.reasoning := reasoning |}.

(** A line item with its [total] set. *)
Definition totalled (item : QuoteLineItem.t) (total : Q) : QuoteLineItem.t :=
  {| QuoteLineItem.sku := QuoteLineItem.sku item;
     QuoteLineItem.description := QuoteLineItem.description item;
     QuoteLineItem.quantity := QuoteLineItem.quantity item;
     QuoteLineItem.unit_price := QuoteLineItem.unit_price item;
     QuoteLineItem.total := total;
     QuoteLineItem.category := QuoteLineItem.category item;
     QuoteLineItem.reasoning := QuoteLineItem.reasoning item |}.

(** The keyword arguments of a decoded item. *)
Definition fields (item : json) : gmap string json :=
  match item with
  | JObj kw => kw
  | _ => ∅
  end.

End Cases.

(* ===================================================================== *)
(** ** The specification's words *)
(* ===================================================================== *)

Module Spec.

(** [s] contains [token] as a case-insensitive substring: some part of
    [s] is [token] up to the case of the letters. *)
Definition contains_ignoring_case (token s : string) : Prop :=
  ∃ pre mid post, s = pre +:+ mid +:+ post ∧ Py.lower mid = Py.lower token.

(** The estimated cost of the specification: 0.6 of each line total. *)
Definition cost (line_items : list QuoteLineItem.t) : Q :=
  Py.sum ((λ item, QuoteLineItem.total item * 0.6)%Q <$> line_items).

(** The lines that the specification adds up: those tagged base or
    upgrade. *)
Definition base_or_upgrade (item : QuoteLineItem.t) : bool :=
  String.eqb (QuoteLineItem.category item) "base"
  || String.eqb (QuoteLineItem.category item) "upgrade".

(** The subtotal of the specification. *)
Definition subtotal (line_items : list QuoteLineItem.t) : Q :=
  Py.sum (QuoteLineItem.total <$> List.filter base_or_upgrade line_items).

(** The margin formula of the specification. *)
Definition margin_percent (subtotal cost : Q) : Q :=
  ((subtotal - cost) / subtotal * 100)%Q.

End Spec.

(* ===================================================================== *)
(** ** Facts about the runtime *)
(* ===================================================================== *)

Section numbers.
Local Open Scope Q_scope.

Lemma fold_left_Qplus (xs : list Q) (a : Q) :
  fold_left Qplus xs a == a + fold_left Qplus xs 0.
Proof.
  revert a. induction xs as [|x xs IH]; intros a; simpl.
  - lra.
  - rewrite (IH (a + x)), (IH (0 + x)). lra.
Qed.

Lemma sum_cons (x : Q) (xs : list Q) : Py.sum (x :: xs) == x + Py.sum xs.
Proof.
  unfold Py.sum. simpl. rewrite fold_left_Qplus. lra.
Qed.

(** Scaling every term scales the sum. *)
Lemma sum_scaled {A : Type} (f : A → Q) (c : Q) (l : list A) :
  Py.sum ((λ a, f a * c) <$> l) == Py.sum (f <$> l) * c.
Proof.
  induction l as [|a l IH].
  - reflexivity.
  - rewrite !fmap_cons, !sum_cons, IH. lra.
Qed.

Lemma gt_true (a b : Q) : Py.gt a b = true ↔ b < a.
Proof.
  unfold Py.gt. rewrite (Qgt_alt a b).
  destruct (a ?= b); split; congruence.
Qed.

Lemma gt_false (a b : Q) : Py.gt a b = false ↔ a <= b.
Proof.
  unfold Py.gt, Qle. rewrite <- Z.compare_le_iff.
  change (Qnum a * QDen b ?= Qnum b * QDen a)%Z with (a ?= b).
  destruct (a ?= b); split; congruence.
Qed.

Lemma round_half_even_comp (x y : Q) :
  x == y → Py.round_half_even x = Py.round_half_even y.
Proof.
  intros E. unfold Py.round_half_even.
  rewrite (Qfloor_comp x y E).
  assert (x - inject_Z (Qfloor y) == y - inject_Z (Qfloor y)) as -> by (rewrite E; reflexivity).
  reflexivity.
Qed.

Lemma round_half_even_Z (k : Z) : Py.round_half_even (inject_Z k) = k.
Proof.
  unfold Py.round_half_even. rewrite Qfloor_Z.
  assert ((inject_Z k - inject_Z k ?= 1 # 2) = Lt) as ->; [|reflexivity].
  rewrite <- Qlt_alt. lra.
Qed.


Lemma round_comp (x y : Q) (n : nat) : x == y → Py.round x n = Py.round y n.
Proof.
  intros E. unfold Py.round.
  set (p := inject_Z (10 ^ Z.of_nat n)).
  rewrite (round_half_even_comp (x * p) (y * p)); [reflexivity|].
  rewrite E. reflexivity.
Qed.


(** A whole number of cents is left as it is. *)
Lemma round_2_exact (x : Q) (k : Z) : x * 100 == inject_Z k → Py.round x 2 == x.
Proof.
  intros E. unfold Py.round.
  change (inject_Z (10 ^ Z.of_nat 2)) with 100.
  rewrite (round_half_even_comp _ _ E), round_half_even_Z, <- E. field.
Qed.

Lemma div_nonzero (a b : Q) : ¬ b == 0 → Py.div a b = Py.Return (a / b).
Proof.
  intros Hb. unfold Py.div.
  destruct (Qeq_bool b 0) eqn:E; [|reflexivity].
  by apply Qeq_bool_iff in E.
Qed.

(** Behind its guard the division of the margin never meets a zero. *)
Lemma guarded_margin (subtotal cost : Q) :
  (if Py.gt subtotal 0
   then Py.bind (Py.div (subtotal - cost) subtotal)
          (λ ratio, Py.Return (ratio * 100))
   else Py.Return 0)
  = Py.Return
      (if Py.gt subtotal 0 then (subtotal - cost) / subtotal * 100 else 0).
Proof.
  destruct (Py.gt subtotal 0) eqn:Hgt; [|reflexivity].
  apply gt_true in Hgt. rewrite div_nonzero; [reflexivity|]. lra.
Qed.

End numbers.

Section strings.

Lemma append_nil (s : string) : EmptyString +:+ s = s.
Proof. reflexivity. Qed.

Lemma append_cons (a : ascii) (s t : string) :
  String a s +:+ t = String a (s +:+ t).
Proof. reflexivity. Qed.

Lemma append_assoc (a b c : string) : (a +:+ b) +:+ c = a +:+ b +:+ c.
Proof.
  induction a as [|x a IH]; [reflexivity|]. by rewrite !append_cons, IH.
Qed.

Lemma startswith_app (p s : string) : Py.startswith p (p +:+ s) = true.
Proof.
  induction p as [|a p IH]; [reflexivity|].
  rewrite append_cons. simpl. by rewrite Ascii.eqb_refl.
Qed.

Lemma startswith_inv (p s : string) :
  Py.startswith p s = true → ∃ post, s = p +:+ post.
Proof.
  revert s. induction p as [|a p IH]; intros s Hs.
  - by exists s.
  - destruct s as [|b s]; simpl in Hs; [discriminate|].
    destruct (Ascii.eqb a b) eqn:E; [|discriminate].
    apply Ascii.eqb_eq in E as ->.
    destruct (IH _ Hs) as [post ->]. exists post. by rewrite append_cons.
Qed.

Lemma contains_eq (sub s : string) :
  Py.contains sub s =
  Py.startswith sub s ||
  match s with EmptyString => false | String _ s' => Py.contains sub s' end.
Proof.
  by destruct s.
Qed.

(** [sub in s] holds of a string built around [sub]. *)
Lemma contains_app (sub pre post : string) :
  Py.contains sub (pre +:+ sub +:+ post) = true.
Proof.
  induction pre as [|a pre IH].
  - by rewrite append_nil, contains_eq, startswith_app.
  - by rewrite append_cons, contains_eq, IH, orb_true_r.
Qed.

(** [sub in s] holds only of a string built around [sub]. *)
Lemma contains_inv (sub s : string) :
  Py.contains sub s = true → ∃ pre post, s = pre +:+ sub +:+ post.
Proof.
  induction s as [|a s IH]; rewrite contains_eq; intros Hc;
    apply orb_true_iff in Hc as [Hc|Hc]; try discriminate.
  - apply startswith_inv in Hc as [post ->]. by exists EmptyString, post.
  - apply startswith_inv in Hc as [post ->]. by exists EmptyString, post.
  - destruct (IH Hc) as (pre & post & ->). exists (String a pre), post.
    by rewrite append_cons.
Qed.

Lemma lower_app (a b : string) : Py.lower (a +:+ b) = Py.lower a +:+ Py.lower b.
Proof.
  induction a as [|x a IH]; [reflexivity|].
  rewrite !append_cons. simpl. by rewrite append_cons, IH.
Qed.

(** A split of [s.lower()] comes from a split of [s]. *)
Lemma lower_split (s a b : string) :
  Py.lower s = a +:+ b →
  ∃ s1 s2, s = s1 +:+ s2 ∧ Py.lower s1 = a ∧ Py.lower s2 = b.
Proof.
  revert s. induction a as [|x a IH]; intros s Hs.
  - by exists EmptyString, s.
  - rewrite append_cons in Hs.
    destruct s as [|y s]; simpl in Hs; [discriminate|].
    injection Hs as Hx Hs.
    destruct (IH _ Hs) as (s1 & s2 & -> & H1 & H2).
    exists (String y s1), s2. rewrite append_cons. simpl. by rewrite Hx, H1.
Qed.

(** The values of [ProjectType] are in lower case already. *)
Lemma lower_value (p : ProjectType) :
  Py.lower (ProjectTypes.value p) = ProjectTypes.value p.
Proof.
  by destruct p.
Qed.

(** The test of the code, [token in s.lower()], is the case-insensitive
    containment of the specification for a token in lower case. *)
Lemma contains_lower (token s : string) :
  Py.lower token = token →
  Py.contains token (Py.lower s) = true ↔ Spec.contains_ignoring_case token s.
Proof.
  intros Htoken. split.
  - intros Hc. apply contains_inv in Hc as (pre & post & Hs).
    apply lower_split in Hs as (s1 & s23 & -> & H1 & Hs).
    apply lower_split in Hs as (s2 & s3 & -> & H2 & H3).
    exists s1, s2, s3. split; [reflexivity|]. by rewrite Htoken.
  - intros (pre & mid & post & -> & Hmid).
    rewrite !lower_app, Hmid, Htoken. apply contains_app.
Qed.

End strings.

(* ===================================================================== *)
(** ** Facts about the decorator *)
(* ===================================================================== *)

Section retrying.
Context {A : Type} (fn : nat → Py.result A).

(** A call that returns did so at some attempt, reached through attempts
    that raised and were not the last. *)
Lemma retry_returns (stop : nat → bool) (wait : nat → Z) (fuel k : nat)
    (a : A) (events : list Tenacity.event) :
  Tenacity.retry stop wait fn fuel k = Some (Py.Return a, events) →
  ∃ n, (k ≤ n)%nat ∧ fn n = Py.Return a ∧
       ∀ m, (k ≤ m < n)%nat → stop m = false.
Proof.
  revert k events. induction fuel as [|fuel IH]; intros k events Hr; [discriminate|].
  simpl in Hr. destruct (fn k) as [b|e] eqn:Hk.
  - injection Hr as -> _. exists k. split; [lia|]. split; [done|]. intros m ?. lia.
  - destruct (stop k) eqn:Hs; [discriminate|].
    destruct (Tenacity.retry stop wait fn fuel (S k)) as [[r ev]|] eqn:Hrec;
      [|discriminate].
    injection Hr as -> _.
    destruct (IH _ _ Hrec) as (n & Hn & Hfn & Hstop).
    exists n. split; [lia|]. split; [done|].
    intros m Hm. destruct (decide (m = k)) as [->|]; [done|]. apply Hstop. lia.
Qed.

(** With three attempts allowed and fuel for three, the call is decided
    by what the first three attempts do. *)
Lemma retry_three (wait : nat → Z) (fuel : nat) :
  (3 ≤ fuel)%nat →
  Tenacity.retry (Tenacity.stop_after_attempt 3) wait fn fuel 1 =
  Some
    match fn 1%nat with
    | Py.Return a => (Py.Return a, [Tenacity.Attempt 1])
    | Py.Raise _ =>
        match fn 2%nat with
        | Py.Return a =>
            (Py.Return a,
             [Tenacity.Attempt 1; Tenacity.Sleep (wait 1%nat); Tenacity.Attempt 2])
        | Py.Raise _ =>
            (match fn 3%nat with
             | Py.Return a => Py.Return a
             | Py.Raise e => Py.Raise (Py.RetryError e)
             end,
             [Tenacity.Attempt 1; Tenacity.Sleep (wait 1%nat); Tenacity.Attempt 2;
              Tenacity.Sleep (wait 2%nat); Tenacity.Attempt 3])
        end
    end.
Proof.
  intros Hfuel. destruct fuel as [|[|[|fuel]]]; try lia.
  simpl. destruct (fn 1%nat); [reflexivity|].
  destruct (fn 2%nat); [reflexivity|].
  destruct (fn 3%nat); reflexivity.
Qed.

End retrying.

Section backoff.
Local Open Scope Z_scope.

Lemma wait_exponential_range (n : nat) :
  2 ≤ Tenacity.wait_exponential 1 2 10 n ≤ 10.
Proof.
  unfold Tenacity.wait_exponential. lia.
Qed.

Lemma wait_exponential_mono (n : nat) :
  Tenacity.wait_exponential 1 2 10 n ≤ Tenacity.wait_exponential 1 2 10 (S n).
Proof.
  unfold Tenacity.wait_exponential.
  assert (2 ^ (Z.of_nat n - 1) ≤ 2 ^ (Z.of_nat (S n) - 1)); [|lia].
  destruct n as [|n]; [done|]. apply Z.pow_le_mono_r; lia.
Qed.

(** From the second attempt on the wait is the power of two, up to the cap. *)
Lemma wait_exponential_power (n : nat) :
  (2 ≤ n)%nat →
  Tenacity.wait_exponential 1 2 10 n = Z.min (2 ^ (Z.of_nat n - 1)) 10.
Proof.
  intros Hn. unfold Tenacity.wait_exponential.
  assert (2 ^ 1 ≤ 2 ^ (Z.of_nat n - 1)) by (apply Z.pow_le_mono_r; lia).
  lia.
Qed.

End backoff.

(* ===================================================================== *)
(** ** Facts about one attempt *)
(* ===================================================================== *)

Import QuoteGenerator.

Section attempt.
Context `{Pydantic} `{FloatFormat}.

(** Case analysis on the next step of a sequence that returned. *)
Ltac step H :=
  match type of H with
  | Py.bind ?m _ = Py.Return _ =>
      let E := fresh "E" in
      destruct m eqn:E; simpl in H; [|discriminate]
  end.

Lemma handler_returns {A : Type} (m : Py.result A) (a : A) :
  handler m = Py.Return a → m = Py.Return a.
Proof.
  destruct m as [|[]]; simpl; congruence.
Qed.

Lemma required_returns {A : Type} (validate : json → option A)
    (kw : gmap string json) (name : string) (a : A) :
  Field.required validate kw name = Py.Return a →
  ∃ v, kw !! name = Some v ∧ validate v = Some a.
Proof.
  unfold Field.required. destruct (kw !! name) as [v|]; [|discriminate].
  destruct (validate v) eqn:E; [|discriminate].
  intros [= ->]. by exists v.
Qed.

(** A constructed line item has the SKU its keyword argument gives. *)
Lemma new_line_item_sku (kw : gmap string json) (li : QuoteLineItem.t) :
  QuoteLineItem.new kw = Py.Return li →
  ∃ v, kw !! "sku" = Some v ∧ validate_str v = Some (QuoteLineItem.sku li).
Proof.
  unfold QuoteLineItem.new. intros Hn.
  step Hn. apply required_returns in E as (v & Hv & Hs).
  do 6 step Hn. injection Hn as <-. by exists v.
Qed.

Lemma comprehension_returns {A B : Type} (f : A → Py.result B)
    (l : list A) (l' : list B) :
  Py.comprehension f l = Py.Return l' →
  Forall2 (λ a b, f a = Py.Return b) l l'.
Proof.
  revert l'. induction l as [|a l IH]; intros l' Hc; simpl in Hc.
  - injection Hc as <-. constructor.
  - do 2 step Hc. injection Hc as <-. constructor; [done|]. by apply IH.
Qed.

(** No decoded item is dropped, and none changes its SKU. *)
Lemma build_line_items_keeps_skus (items : json) (built : list QuoteLineItem.t) :
  build_line_items items = Py.Return built → keeps_skus items built.
Proof.
  unfold build_line_items. intros Hb. step Hb.
  exists a. split; [done|].
  apply comprehension_returns in Hb.
  eapply Forall2_impl; [exact Hb|]. intros j li Hj. simpl in Hj.
  step Hj. destruct j; try discriminate. injection E0 as ->.
  apply new_line_item_sku in Hj as (v & Hv & Hs). by exists a0, v.
Qed.

(** What a returned response is made of. *)
Lemma suggest_quote_body_returns (w : world) (request : QuoteRequest.t)
    (similar_quotes : list HistoricalQuote.t) (catalog : list CatalogItem.t)
    (r : QuoteResponse.t) :
  suggest_quote_body w request similar_quotes catalog = Py.Return r →
  ∃ response d items,
    create w (ContextBuilder.build_suggest_quote_prompt request similar_quotes catalog)
      = Py.Return response ∧
    content response = Some (JObj d) ∧
    d !! "line_items" = Some items ∧
    build_line_items items = Py.Return (QuoteResponse.line_items r) ∧
    build_line_items (default (JArr []) (d !! "upsell_suggestions"))
      = Py.Return (QuoteResponse.upsell_suggestions r) ∧
    validate_float (default (JFloat 0.7) (d !! "confidence_score"))
      = Some (QuoteResponse.confidence_score r) ∧
    QuoteResponse.subtotal r
      = Py.sum (QuoteLineItem.total <$> QuoteResponse.line_items r) ∧
    QuoteResponse.tax r = (QuoteResponse.subtotal r * 0.0825)%Q ∧
    QuoteResponse.total r = (QuoteResponse.subtotal r + QuoteResponse.tax r)%Q ∧
    QuoteResponse.estimated_margin_percent r
      = Py.round
          (if Py.gt (QuoteResponse.subtotal r) 0
           then Spec.margin_percent (QuoteResponse.subtotal r)
                                    (Spec.cost (QuoteResponse.line_items r))
           else 0%Q) 2.
Proof.
  unfold suggest_quote_body. intros Hb. apply handler_returns in Hb.
  step Hb. rename a into response.
  step Hb. rename a into quote_data.
  destruct (content response) as [doc|] eqn:Hcontent; [|discriminate].
  injection E0 as ->.
  step Hb. rename a into items.
  destruct quote_data as [| | | | | |d]; try discriminate.
  simpl in E0. destruct (d !! "line_items") as [items'|] eqn:Hitems;
    [|discriminate]. injection E0 as ->.
  step Hb. rename a into line_items.
  rewrite guarded_margin in Hb. cbn [Py.bind] in Hb.
  unfold Json.get in Hb.
  assert (∀ (k : string) (dflt : json),
            match d !! k with
            | Some v => Py.Return v
            | None => Py.Return dflt
            end = Py.Return (default dflt (d !! k))) as Hget
    by (intros k dflt; by destruct (d !! k)).
  rewrite !Hget in Hb. simpl in Hb.
  step Hb. rename a into upsell_suggestions.
  unfold QuoteResponse.new in Hb.
  destruct (validate_str _) as [reasoning|]; [|discriminate].
  destruct (validate_float _) as [score|] eqn:Hscore; [|discriminate].
  injection Hb as <-. exists response, d, items. simpl.
  repeat split; done.
Qed.

End attempt.

(* ===================================================================== *)
(** ** The decorated call *)
(* ===================================================================== *)

Section reconciliation.
Context `{Pydantic} `{FloatFormat}.
Local Open Scope Q_scope.

(** A response returned by [suggest_quote] is the response of one of its
    three attempts. *)
Lemma suggest_quote_returns (worlds : nat → world) (request : QuoteRequest.t)
    (similar_quotes : list HistoricalQuote.t) (catalog : list CatalogItem.t)
    (fuel : nat) (r : QuoteResponse.t) (events : list Tenacity.event) :
  suggest_quote worlds request similar_quotes catalog fuel
    = Some (Py.Return r, events) →
  ∃ n, (1 ≤ n ≤ 3)%nat ∧
       suggest_quote_body (worlds n) request similar_quotes catalog = Py.Return r.
Proof.
  unfold suggest_quote. intros Hr.
  apply retry_returns in Hr as (n & Hn & Hfn & Hstop).
  exists n. split; [|done]. split; [done|].
  destruct (decide (n ≤ 3)%nat) as [|Hgt]; [done|].
  specialize (Hstop 3%nat ltac:(lia)). discriminate.
Qed.

(** The estimated cost is 0.6 of the subtotal. *)
Lemma cost_of_subtotal (line_items : list QuoteLineItem.t) :
  Spec.cost line_items == Py.sum (QuoteLineItem.total <$> line_items) * 0.6.
Proof.
  unfold Spec.cost. apply (sum_scaled QuoteLineItem.total).
Qed.

(** The margin formula gives 40 for any subtotal but zero. *)
Lemma margin_percent_40 (line_items : list QuoteLineItem.t) :
  let subtotal := Py.sum (QuoteLineItem.total <$> line_items) in
  ¬ subtotal == 0 →
  Spec.margin_percent subtotal (Spec.cost line_items) == 40.
Proof.
  intros subtotal Hs. unfold Spec.margin_percent.
  rewrite cost_of_subtotal. fold subtotal. field. exact Hs.
Qed.

(** The margin that [suggest_quote] stores, as a function of the subtotal. *)
Lemma stored_margin (line_items : list QuoteLineItem.t) :
  let subtotal := Py.sum (QuoteLineItem.total <$> line_items) in
  Py.round
    (if Py.gt subtotal 0
     then Spec.margin_percent subtotal (Spec.cost line_items) else 0) 2
  == if Py.gt subtotal 0 then 40 else 0.
Proof.
  intros subtotal. destruct (Py.gt subtotal 0) eqn:Hgt.
  - apply gt_true in Hgt.
    rewrite (round_comp _ 40); [reflexivity|].
    apply margin_percent_40. fold subtotal. lra.
  - reflexivity.
Qed.

(** The margin of a returned response depends on its subtotal only. *)
Lemma returned_margin (worlds : nat → world) (request : QuoteRequest.t)
    (similar_quotes : list HistoricalQuote.t) (catalog : list CatalogItem.t)
    (fuel : nat) (r : QuoteResponse.t) (events : list Tenacity.event) :
  suggest_quote worlds request similar_quotes catalog fuel
    = Some (Py.Return r, events) →
  QuoteResponse.subtotal r
    = Py.sum (QuoteLineItem.total <$> QuoteResponse.line_items r)
  ∧ QuoteResponse.estimated_margin_percent r
    == if Py.gt (QuoteResponse.subtotal r) 0 then 40 else 0.
Proof.
  intros Hr. apply suggest_quote_returns in Hr as (n & _ & Hbody).
  apply suggest_quote_body_returns in Hbody
    as (response & d & items & _ & _ & _ & _ & _ & _ & Hsub & _ & _ & Hmargin).
  split; [done|]. rewrite Hmargin, Hsub. apply stored_margin.
Qed.

End reconciliation.

(* ===================================================================== *)
(** ** Arithmetic of the response *)
(* ===================================================================== *)




(** C4 fails on the code: a confidence of 1.5 in the model's document is
    the confidence of the response. *)
Theorem suggest_quote_confidence_unchecked :
  ∃ r, Scenario.quoted Scenario.overconfident = Some r
       ∧ (QuoteResponse.confidence_score r == 1.5)%Q
       ∧ (1 < QuoteResponse.confidence_score r)%Q.
Proof.
  eexists. split; [vm_compute; reflexivity|].
  split; vm_compute; reflexivity.
Qed.

(* ===================================================================== *)
(** ** SKUs of the response *)
(* ===================================================================== *)

(** C1 as stated fails: the model prices GHOST-1 and suggests GHOST-2, the
    catalog has SHELF-8FT only, and the call returns a response with both. *)
Lemma suggest_quote_unknown_sku :
  ∃ r, Scenario.quoted Scenario.ghosts = Some r
       ∧ QuoteLineItem.sku <$> QuoteResponse.line_items r = ["GHOST-1"]
       ∧ QuoteLineItem.sku <$> QuoteResponse.upsell_suggestions r = ["GHOST-2"]
       ∧ CatalogItem.sku <$> Scenario.catalog = ["SHELF-8FT"]
       ∧ ("GHOST-1" ∉ (CatalogItem.sku <$> Scenario.catalog))
       ∧ ("GHOST-2" ∉ (CatalogItem.sku <$> Scenario.catalog)).
Proof.
  eexists. split; [vm_compute; reflexivity|].
  repeat split; try (vm_compute; reflexivity);
    intros Hin; apply list_elem_of_singleton in Hin; discriminate.
Qed.

(* ===================================================================== *)
(** ** Validation of the request *)
(* ===================================================================== *)

Section request.
Context `{Pydantic}.

Lemma required_insert_ne {A : Type} (validate : json → option A)
    (kw : gmap string json) (k name : string) (v : json) :
  k ≠ name →
  Field.required validate (<[k := v]> kw) name = Field.required validate kw name.
Proof.
  intros Hne. unfold Field.required. by rewrite lookup_insert_ne.
Qed.

Lemma optional_insert_ne {A : Type} (validate : json → option A)
    (kw : gmap string json) (k name : string) (v : json) :
  k ≠ name →
  Field.optional validate (<[k := v]> kw) name = Field.optional validate kw name.
Proof.
  intros Hne. unfold Field.optional. by rewrite lookup_insert_ne.
Qed.

(** An optional [float] field takes any float given for it. *)
Lemma optional_insert_float (kw : gmap string json) (name : string) (q : Q) :
  Field.optional validate_float (<[name := JFloat q]> kw) name
  = Py.Return (Some q).
Proof.
  unfold Field.optional. by rewrite lookup_insert_eq, validate_float_float.
Qed.

End request.

(** C5, as the code has it.  The validation of a [QuoteRequest] puts no
    bound on [square_footage] and [ceiling_height]: a request that
    validates still validates, and carries the given values, when these
    two fields are set to any floats, zero and negative ones included. *)
Theorem QuoteRequest_numbers_unbounded `{Pydantic} (kw : gmap string json)
    (r : QuoteRequest.t) (square_footage ceiling_height : Q) :
  QuoteRequest.new kw = Py.Return r →
  QuoteRequest.new (<["square_footage" := JFloat square_footage]>
                   (<["ceiling_height" := JFloat ceiling_height]> kw))
  = Py.Return
      {| QuoteRequest.tenant_id := QuoteRequest.tenant_id r;
         QuoteRequest.customer_id := QuoteRequest.customer_id r;
         QuoteRequest.project_type := QuoteRequest.project_type r;
         QuoteRequest.customer_notes := QuoteRequest.customer_notes r;
         QuoteRequest.square_footage := Some square_footage;
         QuoteRequest.ceiling_height := Some ceiling_height;
         QuoteRequest.budget_range := QuoteRequest.budget_range r;
         QuoteRequest.site_photos := QuoteRequest.site_photos r;
         QuoteRequest.customer_context := QuoteRequest.customer_context r |}.
Proof.
  unfold QuoteRequest.new. intros Hr.
  rewrite !required_insert_ne by done.
  rewrite optional_insert_float.
  rewrite (optional_insert_ne _ _ "square_footage" "ceiling_height") by done.
  rewrite optional_insert_float.
  rewrite !optional_insert_ne by done.
  repeat match type of Hr with
  | Py.bind ?m _ = Py.Return _ => destruct m; simpl in Hr; [|discriminate]
  end.
  injection Hr as <-. reflexivity.
Qed.

(** The request of the scenario, with -5 square feet under a ceiling of 0. *)
Lemma QuoteRequest_numbers_unbounded_witness :
  ∃ r r',
    QuoteRequest.new (Scenario.body (JFloat 64) JNull) = Py.Return r
    ∧ QuoteRequest.new
        (<["square_footage" := JFloat (-5)]>
           (<["ceiling_height" := JFloat 0]> (Scenario.body (JFloat 64) JNull)))
      = Py.Return r'
    ∧ QuoteRequest.square_footage r' = Some (-5)%Q
    ∧ QuoteRequest.ceiling_height r' = Some 0%Q.
Proof.
  eexists _, _. split; [vm_compute; reflexivity|].
  split.
  - eapply QuoteRequest_numbers_unbounded. vm_compute. reflexivity.
  - split; reflexivity.
Defined.

(** C5 as stated fails: a body with [square_footage] -5.0 and
    [ceiling_height] 0 validates, and the request carries both. *)
Lemma QuoteRequest_accepts_nonpositive :
  ∃ r, QuoteRequest.new (Scenario.body (JFloat (-5)) (JInt 0)) = Py.Return r
       ∧ QuoteRequest.square_footage r = Some (-5)%Q
       ∧ QuoteRequest.ceiling_height r = Some 0%Q.
Proof.
  eexists. split; [vm_compute; reflexivity|]. split; reflexivity.
Qed.

(* ===================================================================== *)
(** ** The retry policy *)
(* ===================================================================== *)

(** C6.  [suggest_quote] makes three attempts at most.  Whatever exception
    an attempt raises, the call sleeps and makes the next attempt, unless
    it was the third; the sleep after the first attempt is 2 seconds, no
    sleep is longer than 10, and from the second attempt on it is the
    power of two of the attempts made, up to that cap.  When the first two
    attempts raise and the third returns, its response is returned. *)
Theorem suggest_quote_retry_policy `{Pydantic} `{FloatFormat}
    (worlds : nat → world) (request : QuoteRequest.t)
    (similar_quotes : list HistoricalQuote.t) (catalog : list CatalogItem.t)
    (fuel : nat) :
  (3 ≤ fuel)%nat →
  let attempt n := suggest_quote_body (worlds n) request similar_quotes catalog in
  let wait := Tenacity.wait_exponential 1 2 10 in
  ∃ result events n,
    suggest_quote worlds request similar_quotes catalog fuel = Some (result, events)
    ∧ (1 ≤ n ≤ 3)%nat
    ∧ events = Tenacity.schedule wait n
    ∧ (∀ k, (1 ≤ k < n)%nat → ∃ e, attempt k = Py.Raise e)
    ∧ match attempt n with
      | Py.Return r => result = Py.Return r
      | Py.Raise e => n = 3%nat ∧ result = Py.Raise (Py.RetryError e)
      end
    ∧ (∀ e1 e2 r,
         attempt 1%nat = Py.Raise e1 → attempt 2%nat = Py.Raise e2 →
         attempt 3%nat = Py.Return r →
         result = Py.Return r
         ∧ Tenacity.sleeps events = [wait 1%nat; wait 2%nat])
    ∧ wait 1%nat = 2%Z
    ∧ (∀ k, (2 ≤ wait k ≤ 10)%Z ∧ (wait k ≤ wait (S k))%Z)
    ∧ (∀ k, (2 ≤ k)%nat → wait k = Z.min (2 ^ (Z.of_nat k - 1)) 10).
Proof.
  intros Hfuel attempt wait.
  assert (wait 1%nat = 2%Z ∧
          (∀ k, (2 ≤ wait k ≤ 10)%Z ∧ (wait k ≤ wait (S k))%Z) ∧
          (∀ k, (2 ≤ k)%nat → wait k = Z.min (2 ^ (Z.of_nat k - 1)) 10))
    as Hwait.
  { split; [reflexivity|]. split.
    - intros k. split; [apply wait_exponential_range|apply wait_exponential_mono].
    - apply wait_exponential_power. }
  unfold suggest_quote. rewrite (retry_three _ wait fuel Hfuel).
  subst attempt. cbv beta.
  destruct (suggest_quote_body (worlds 1%nat) _ _ _) as [r1|e1] eqn:E1.
  { exists (Py.Return r1), [Tenacity.Attempt 1], 1%nat.
    split; [done|]. split; [lia|]. split; [done|].
    split; [intros k Hk; lia|]. split; [by rewrite E1|].
    split; [|done]. intros ? ? ? [=]. }
  destruct (suggest_quote_body (worlds 2%nat) _ _ _) as [r2|e2] eqn:E2.
  { exists (Py.Return r2),
      [Tenacity.Attempt 1; Tenacity.Sleep (wait 1%nat); Tenacity.Attempt 2], 2%nat.
    split; [done|]. split; [lia|]. split; [done|]. split.
    { intros k Hk. assert (k = 1%nat) as -> by lia. by exists e1. }
    split; [by rewrite E2|]. split; [|done]. intros ? ? ? _ [=]. }
  exists (match suggest_quote_body (worlds 3%nat) request similar_quotes catalog with
          | Py.Return a => Py.Return a
          | Py.Raise e => Py.Raise (Py.RetryError e)
          end),
    [Tenacity.Attempt 1; Tenacity.Sleep (wait 1%nat); Tenacity.Attempt 2;
     Tenacity.Sleep (wait 2%nat); Tenacity.Attempt 3], 3%nat.
  split; [done|]. split; [lia|]. split; [done|]. split.
  { intros k Hk. assert (k = 1%nat ∨ k = 2%nat) as [-> | ->] by lia.
    - by exists e1.
    - by exists e2. }
  split; [by destruct (suggest_quote_body (worlds 3%nat) _ _ _)|].
  split; [|done].
  intros e1' e2' r _ _ E3. rewrite E3. done.
Qed.

(** A transport failure, then a text that is not JSON, then an answer:
    three attempts, two sleeps of 2 seconds, and the answer's response.
    An item that the constructor rejects is retried in the same way. *)
Lemma suggest_quote_retry_policy_witness :
  (3 ≤ 3)%nat
  ∧ suggest_quote_body (Scenario.flaky 1) Scenario.request [] Scenario.catalog
    = Py.Raise Py.APIError
  ∧ suggest_quote_body (Scenario.flaky 2) Scenario.request [] Scenario.catalog
    = Py.Raise (Py.ValueError "AI returned invalid JSON")
  ∧ suggest_quote (λ _, Scenario.answering Scenario.incomplete)
      Scenario.request [] Scenario.catalog 3
    = Some (Py.Raise (Py.RetryError Py.ValidationError),
            Tenacity.schedule (Tenacity.wait_exponential 1 2 10) 3)
  ∧ ∃ result events,
      suggest_quote Scenario.flaky Scenario.request [] Scenario.catalog 3
        = Some (result, events)
      ∧ Scenario.returned (Some (result, events))
        = Scenario.quoted Scenario.shelves
      ∧ Tenacity.attempts events = [1; 2; 3]%nat
      ∧ Tenacity.sleeps events = [2; 2]%Z.
Proof.
  split; [lia|]. split; [reflexivity|]. split; [reflexivity|].
  split; [vm_compute; reflexivity|].
  destruct (suggest_quote_retry_policy
              Scenario.flaky Scenario.request [] Scenario.catalog 3
              (le_n 3))
    as (result & events & n & Hrun & _).
  exists result, events. split; [exact Hrun|].
  vm_compute in Hrun. injection Hrun as <- <-.
  repeat split; vm_compute; reflexivity.
Defined.

(* ===================================================================== *)
(** ** The prompts *)
(* ===================================================================== *)

(** C9.  [build_suggest_quote_prompt] returns a prompt for every input:
    with no similar quotes its section is the sentence "No similar quotes
    found.", and with no catalog item left by the filter its section is
    the sentence "No catalog items available."; the prompt contains the
    sentence in each case. *)
Theorem prompt_sentinels `{FloatFormat} (request : QuoteRequest.t)
    (similar_quotes : list HistoricalQuote.t) (catalog : list CatalogItem.t) :
  ContextBuilder._format_similar_quotes [] = "No similar quotes found."
  ∧ Py.contains "No similar quotes found."
      (ContextBuilder.build_suggest_quote_prompt request [] catalog) = true
  ∧ ContextBuilder._format_catalog [] = "No catalog items available."
  ∧ Py.contains "No catalog items available."
      (ContextBuilder.build_suggest_quote_prompt request similar_quotes []) = true
  ∧ (List.filter (ContextBuilder.relevant request) catalog = [] →
     Py.contains "No catalog items available."
       (ContextBuilder.build_suggest_quote_prompt request similar_quotes catalog)
     = true).
Proof.
  assert (∀ l, List.filter (ContextBuilder.relevant request) l = [] →
            Py.contains "No catalog items available."
              (ContextBuilder.build_suggest_quote_prompt request similar_quotes l)
            = true) as Hempty.
  { intros l Hl. unfold ContextBuilder.build_suggest_quote_prompt.
    rewrite Hl. simpl ContextBuilder._format_catalog.
    rewrite <- (append_assoc (ContextBuilder._format_similar_quotes _)).
    rewrite <- (append_assoc (ContextBuilder.suggest_quote_head _)).
    apply contains_app. }
  split; [reflexivity|]. split; [apply contains_app|].
  split; [reflexivity|]. split; [by apply Hempty|]. apply Hempty.
Qed.

(* ===================================================================== *)
(** ** More about one attempt *)
(* ===================================================================== *)

Section attempt_edges.
Context `{Pydantic} `{FloatFormat}.

Lemma handler_never_decode_error {A : Type} (m : Py.result A) :
  handler m ≠ Py.Raise Py.JSONDecodeError.
Proof.
  destruct m as [|[]]; simpl; discriminate.
Qed.

(** The fields of a returned response that the arithmetic does not touch. *)
Lemma suggest_quote_body_fields (w : world) (request : QuoteRequest.t)
    (similar_quotes : list HistoricalQuote.t) (catalog : list CatalogItem.t)
    (r : QuoteResponse.t) :
  suggest_quote_body w request similar_quotes catalog = Py.Return r →
  ∃ response d,
    create w (ContextBuilder.build_suggest_quote_prompt request similar_quotes catalog)
      = Py.Return response ∧
    content response = Some (JObj d) ∧
    QuoteResponse.quote_id r
      = "quote_" +:+ QuoteRequest.tenant_id request +:+ "_" +:+
        Py.str_int (created response) ∧
    QuoteResponse.tenant_id r = QuoteRequest.tenant_id request ∧
    QuoteResponse.similar_quotes_used r = Z.of_nat (length similar_quotes) ∧
    QuoteResponse.generated_at r = utcnow w ∧
    validate_str (default (JStr EmptyString) (d !! "reasoning"))
      = Some (QuoteResponse.reasoning r).
Proof.
  unfold suggest_quote_body. intros Hb. apply handler_returns in Hb.
  destruct (create w _) as [response|] eqn:Hcreate; simpl in Hb; [|discriminate].
  destruct (content response) as [[| | | | | |d]|] eqn:Hcontent;
    simpl in Hb; try discriminate.
  destruct (d !! "line_items") as [items|]; simpl in Hb; [|discriminate].
  destruct (build_line_items items) as [line_items|]; simpl in Hb; [|discriminate].
  rewrite guarded_margin in Hb. cbn [Py.bind] in Hb.
  assert (∀ (k : string) (dflt : json),
            match d !! k with
            | Some v => Py.Return v
            | None => Py.Return dflt
            end = Py.Return (default dflt (d !! k))) as Hget
    by (intros k dflt; by destruct (d !! k)).
  rewrite !Hget in Hb. cbn [Py.bind] in Hb.
  destruct (build_line_items (default _ _)) as [upsell_suggestions|];
    cbn [Py.bind] in Hb; [|discriminate].
  unfold QuoteResponse.new in Hb.
  destruct (validate_str _) as [text|] eqn:Htext; [|discriminate].
  destruct (validate_float _) as [score|]; [|discriminate].
  injection Hb as <-. exists response, d. simpl. repeat split; done.
Qed.

End attempt_edges.

(* ===================================================================== *)
(** ** Failures and defaults of one attempt *)
(* ===================================================================== *)

(** X1.  When the text of the model is not JSON, an attempt of
    [suggest_quote] raises [ValueError] with the message "AI returned
    invalid JSON"; whatever happens, it never raises [JSONDecodeError]. *)
Theorem suggest_quote_body_decode_error `{Pydantic} `{FloatFormat}
    (w : world) (request : QuoteRequest.t)
    (similar_quotes : list HistoricalQuote.t) (catalog : list CatalogItem.t) :
  (∀ response,
     create w (ContextBuilder.build_suggest_quote_prompt request similar_quotes catalog)
       = Py.Return response →
     content response = None →
     suggest_quote_body w request similar_quotes catalog
       = Py.Raise (Py.ValueError "AI returned invalid JSON"))
  ∧ suggest_quote_body w request similar_quotes catalog
      ≠ Py.Raise Py.JSONDecodeError.
Proof.
  split.
  - intros response Hcreate Hcontent. unfold suggest_quote_body.
    by rewrite Hcreate; simpl; rewrite Hcontent.
  - apply handler_never_decode_error.
Qed.

(** X2.  A document of the model that is a dict without the key
    [line_items] makes the attempt raise [KeyError], with no default as
    the other keys have; a document that is not a dict makes it raise
    [TypeError]. *)
Theorem suggest_quote_body_needs_line_items `{Pydantic} `{FloatFormat}
    (w : world) (request : QuoteRequest.t)
    (similar_quotes : list HistoricalQuote.t) (catalog : list CatalogItem.t)
    (response : ChatCompletion) (doc : json) :
  create w (ContextBuilder.build_suggest_quote_prompt request similar_quotes catalog)
    = Py.Return response →
  content response = Some doc →
  match doc with
  | JObj d =>
      d !! "line_items" = None →
      suggest_quote_body w request similar_quotes catalog
        = Py.Raise (Py.KeyError "line_items")
  | _ =>
      suggest_quote_body w request similar_quotes catalog = Py.Raise Py.TypeError
  end.
Proof.
  intros Hcreate Hcontent. unfold suggest_quote_body.
  rewrite Hcreate. simpl. rewrite Hcontent.
  destruct doc; try reflexivity.
  intros Hd. simpl. by rewrite Hd.
Qed.

Lemma suggest_quote_body_needs_line_items_witness :
  suggest_quote_body (Scenario.answering Cases.bare)
    Scenario.request [] Scenario.catalog
  = Py.Raise (Py.KeyError "line_items")
  ∧ suggest_quote_body (Scenario.answering Cases.listed)
      Scenario.request [] Scenario.catalog
    = Py.Raise Py.TypeError.
Proof.
  split.
  - by apply (suggest_quote_body_needs_line_items
                (Scenario.answering Cases.bare) Scenario.request []
                Scenario.catalog
                {| content := Some Cases.bare; created := 1700000000 |}
                Cases.bare).
  - by apply (suggest_quote_body_needs_line_items
                (Scenario.answering Cases.listed) Scenario.request []
                Scenario.catalog
                {| content := Some Cases.listed; created := 1700000000 |}
                Cases.listed).
Defined.

(** X3.  In a response returned by an attempt, a key that the model's
    document lacks takes its default: [reasoning] is the empty string,
    [upsell_suggestions] is empty, [confidence_score] is 0.7. *)
Theorem suggest_quote_body_defaults `{Pydantic} `{FloatFormat}
    (w : world) (request : QuoteRequest.t)
    (similar_quotes : list HistoricalQuote.t) (catalog : list CatalogItem.t)
    (response : ChatCompletion) (d : gmap string json) (r : QuoteResponse.t) :
  create w (ContextBuilder.build_suggest_quote_prompt request similar_quotes catalog)
    = Py.Return response →
  content response = Some (JObj d) →
  suggest_quote_body w request similar_quotes catalog = Py.Return r →
  (d !! "reasoning" = None → QuoteResponse.reasoning r = EmptyString)
  ∧ (d !! "upsell_suggestions" = None → QuoteResponse.upsell_suggestions r = [])
  ∧ (d !! "confidence_score" = None → QuoteResponse.confidence_score r = 0.7%Q).
Proof.
  intros Hcreate Hcontent Hr.
  destruct (suggest_quote_body_fields _ _ _ _ _ Hr)
    as (response1 & d1 & Hc1 & Hd1 & _ & _ & _ & _ & Hreasoning).
  destruct (suggest_quote_body_returns _ _ _ _ _ Hr)
    as (response2 & d2 & items & Hc2 & Hd2 & _ & _ & Hups & Hscore & _).
  rewrite Hcreate in Hc1, Hc2.
  injection Hc1 as <-. injection Hc2 as <-.
  rewrite Hcontent in Hd1, Hd2.
  injection Hd1 as <-. injection Hd2 as <-.
  split; [|split]; intros Hnone.
  - rewrite Hnone in Hreasoning. simpl in Hreasoning.
    rewrite validate_str_str in Hreasoning. by injection Hreasoning.
  - rewrite Hnone in Hups. by injection Hups.
  - rewrite Hnone in Hscore. simpl in Hscore.
    rewrite validate_float_float in Hscore. by injection Hscore.
Qed.

Lemma suggest_quote_body_defaults_witness :
  ∃ r, suggest_quote_body (Scenario.answering Cases.terse)
         Scenario.request [] Scenario.catalog = Py.Return r
       ∧ QuoteResponse.reasoning r = EmptyString
       ∧ QuoteResponse.upsell_suggestions r = []
       ∧ QuoteResponse.confidence_score r = 0.7%Q.
Proof.
  eexists. split; [vm_compute; reflexivity|].
  match goal with
  | |- QuoteResponse.reasoning ?r = _ ∧ _ =>
      destruct (@suggest_quote_body_defaults strict decimal
                  (Scenario.answering Cases.terse) Scenario.request []
                  Scenario.catalog
                  {| content := Some Cases.terse; created := 1700000000 |}
                  (<["line_items" := JArr []]> ∅) r
                  eq_refl eq_refl ltac:(vm_compute; reflexivity))
        as (Hreasoning & Hups & Hscore)
  end.
  split; [by apply Hreasoning|]. split; [by apply Hups|]. by apply Hscore.
Defined.

(* ===================================================================== *)
(** ** More about the decorated call *)
(* ===================================================================== *)

Section retrying_more.
Context {A : Type}.


(** A call allowed three attempts raises only after the third. *)
Lemma retry_three_raises (wait : nat → Z) (fn : nat → Py.result A)
    (fuel : nat) (e : Py.exn) (events : list Tenacity.event) :
  Tenacity.retry (Tenacity.stop_after_attempt 3) wait fn fuel 1
    = Some (Py.Raise e, events) →
  ∃ e1 e2 e3,
    fn 1%nat = Py.Raise e1 ∧ fn 2%nat = Py.Raise e2 ∧ fn 3%nat = Py.Raise e3 ∧
    e = Py.RetryError e3 ∧ events = Tenacity.schedule wait 3.
Proof.
  destruct fuel as [|[|[|fuel]]]; simpl; try discriminate.
  - destruct (fn 1%nat); discriminate.
  - destruct (fn 1%nat); [discriminate|]. destruct (fn 2%nat); discriminate.
  - destruct (fn 1%nat) as [|e1]; [discriminate|].
    destruct (fn 2%nat) as [|e2]; [discriminate|].
    destruct (fn 3%nat) as [|e3]; [discriminate|].
    intros [= <- <-]. by exists e1, e2, e3.
Qed.

End retrying_more.

(** X4.  A response returned by [suggest_quote] carries the tenant of the
    request, the number of similar quotes passed in, and the identifier
    quote_<tenant>_<created> and the clock of the attempt that returned. *)
Theorem suggest_quote_identity `{Pydantic} `{FloatFormat}
    (worlds : nat → world) (request : QuoteRequest.t)
    (similar_quotes : list HistoricalQuote.t) (catalog : list CatalogItem.t)
    (fuel : nat) (r : QuoteResponse.t) (events : list Tenacity.event) :
  suggest_quote worlds request similar_quotes catalog fuel
    = Some (Py.Return r, events) →
  QuoteResponse.tenant_id r = QuoteRequest.tenant_id request
  ∧ QuoteResponse.similar_quotes_used r = Z.of_nat (length similar_quotes)
  ∧ ∃ n response,
      (1 ≤ n ≤ 3)%nat
      ∧ create (worlds n)
          (ContextBuilder.build_suggest_quote_prompt request similar_quotes catalog)
        = Py.Return response
      ∧ QuoteResponse.quote_id r
        = "quote_" +:+ QuoteRequest.tenant_id request +:+ "_" +:+
          Py.str_int (created response)
      ∧ QuoteResponse.generated_at r = utcnow (worlds n).
Proof.
  intros Hr. apply suggest_quote_returns in Hr as (n & Hn & Hbody).
  apply suggest_quote_body_fields in Hbody
    as (response & d & Hcreate & _ & Hid & Htenant & Hused & Hat & _).
  split; [done|]. split; [done|]. by exists n, response.
Qed.

Lemma suggest_quote_identity_witness :
  ∃ r, Scenario.quoted Scenario.shelves = Some r
       ∧ QuoteResponse.tenant_id r = "acme"
       ∧ QuoteResponse.similar_quotes_used r = 0%Z
       ∧ QuoteResponse.quote_id r = "quote_acme_1700000000".
Proof.
  eexists. split; [vm_compute; reflexivity|].
  match goal with
  | |- QuoteResponse.tenant_id ?r = _ ∧ _ =>
      destruct (@suggest_quote_identity strict decimal
                  (λ _, Scenario.answering Scenario.shelves)
                  Scenario.request [] Scenario.catalog 3 r [Tenacity.Attempt 1]
                  ltac:(vm_compute; reflexivity))
        as (Htenant & Hused & n & response & _ & Hcreate & Hid & _)
  end.
  split; [exact Htenant|]. split; [exact Hused|].
  injection Hcreate as <-. exact Hid.
Defined.

(** X5.  When no line total of a returned response is negative, neither
    are its subtotal and its tax, the total is not below the subtotal, and
    the total is 1.0825 times the subtotal. *)
Theorem suggest_quote_amounts_nonnegative `{Pydantic} `{FloatFormat}
    (worlds : nat → world) (request : QuoteRequest.t)
    (similar_quotes : list HistoricalQuote.t) (catalog : list CatalogItem.t)
    (fuel : nat) (r : QuoteResponse.t) (events : list Tenacity.event) :
  suggest_quote worlds request similar_quotes catalog fuel
    = Some (Py.Return r, events) →
  Forall (λ item, (0 <= QuoteLineItem.total item)%Q) (QuoteResponse.line_items r) →
  (0 <= QuoteResponse.subtotal r)%Q
  ∧ (0 <= QuoteResponse.tax r)%Q
  ∧ (QuoteResponse.subtotal r <= QuoteResponse.total r)%Q
  ∧ (QuoteResponse.total r == QuoteResponse.subtotal r * 1.0825)%Q.
Proof.
  intros Hr Hitems. apply suggest_quote_returns in Hr as (n & _ & Hbody).
  apply suggest_quote_body_returns in Hbody
    as (response & d & items & _ & _ & _ & _ & _ & _ & Hsub & Htax & Htotal & _).
  assert (0 <= QuoteResponse.subtotal r)%Q as Hnonneg.
  { rewrite Hsub. clear -Hitems.
    induction Hitems as [|item l Hitem _ IH]; [done|].
    rewrite fmap_cons, sum_cons. lra. }
  rewrite Htotal, Htax. repeat split; lra.
Qed.

Lemma suggest_quote_amounts_nonnegative_witness :
  ∃ r, Scenario.quoted Scenario.thousand = Some r
       ∧ (0 <= QuoteResponse.subtotal r)%Q
       ∧ (0 <= QuoteResponse.tax r)%Q
       ∧ (QuoteResponse.subtotal r <= QuoteResponse.total r)%Q
       ∧ (QuoteResponse.total r == QuoteResponse.subtotal r * 1.0825)%Q.
Proof.
  eexists. split; [vm_compute; reflexivity|].
  apply (suggest_quote_amounts_nonnegative
           (λ _, Scenario.answering Scenario.thousand)
           Scenario.request [] Scenario.catalog 3 _ [Tenacity.Attempt 1]).
  - vm_compute. reflexivity.
  - repeat constructor; vm_compute; discriminate.
Defined.

(** X7.  [suggest_quote] raises nothing but [RetryError]: when it raises,
    the three attempts were made and each raised, two sleeps were taken,
    and the error wraps the exception of the third attempt. *)
Theorem suggest_quote_raises_retry_error `{Pydantic} `{FloatFormat}
    (worlds : nat → world) (request : QuoteRequest.t)
    (similar_quotes : list HistoricalQuote.t) (catalog : list CatalogItem.t)
    (fuel : nat) (e : Py.exn) (events : list Tenacity.event) :
  suggest_quote worlds request similar_quotes catalog fuel
    = Some (Py.Raise e, events) →
  ∃ e1 e2 e3,
    suggest_quote_body (worlds 1%nat) request similar_quotes catalog = Py.Raise e1
    ∧ suggest_quote_body (worlds 2%nat) request similar_quotes catalog = Py.Raise e2
    ∧ suggest_quote_body (worlds 3%nat) request similar_quotes catalog = Py.Raise e3
    ∧ e = Py.RetryError e3
    ∧ Tenacity.attempts events = [1; 2; 3]%nat
    ∧ length (Tenacity.sleeps events) = 2%nat.
Proof.
  unfold suggest_quote. intros Hr.
  apply retry_three_raises in Hr as (e1 & e2 & e3 & H1 & H2 & H3 & -> & ->).
  by exists e1, e2, e3.
Qed.

Lemma suggest_quote_raises_retry_error_witness :
  ∃ events,
    suggest_quote (λ _, Scenario.answering Scenario.incomplete)
      Scenario.request [] Scenario.catalog 3
    = Some (Py.Raise (Py.RetryError Py.ValidationError), events)
    ∧ Tenacity.attempts events = [1; 2; 3]%nat
    ∧ length (Tenacity.sleeps events) = 2%nat.
Proof.
  eexists. split; [vm_compute; reflexivity|].
  destruct (@suggest_quote_raises_retry_error strict decimal
              (λ _, Scenario.answering Scenario.incomplete)
              Scenario.request [] Scenario.catalog 3
              (Py.RetryError Py.ValidationError) _
              ltac:(vm_compute; reflexivity))
    as (e1 & e2 & e3 & _ & _ & _ & _ & Hattempts & Hsleeps).
  split; [exact Hattempts|exact Hsleeps].
Defined.



(* ===================================================================== *)
(** ** More about the prompts *)
(* ===================================================================== *)

Section prompts.
Context `{FloatFormat}.

Lemma str_slice_to_idem (n : nat) (s : string) :
  Py.str_slice_to n (Py.str_slice_to n s) = Py.str_slice_to n s.
Proof.
  revert s. induction n as [|n IH]; intros [|c s]; simpl; try reflexivity.
  by rewrite IH.
Qed.

Lemma format_similar_quote_read_of (i : Z) (quote : HistoricalQuote.t) :
  ContextBuilder.format_similar_quote i (ContextBuilder.read_of quote)
  = ContextBuilder.format_similar_quote i quote.
Proof.
  unfold ContextBuilder.format_similar_quote, ContextBuilder.items_summary,
    ContextBuilder.read_of.
  cbn [HistoricalQuote.project_type HistoricalQuote.square_footage
       HistoricalQuote.customer_notes HistoricalQuote.line_items
       HistoricalQuote.total_amount HistoricalQuote.won].
  by rewrite str_slice_to_idem, take_take, Nat.min_id.
Qed.

Lemma enumerate_read_of (quotes : list HistoricalQuote.t) (start : Z) :
  (λ iq, ContextBuilder.format_similar_quote iq.1 iq.2)
    <$> Py.enumerate (ContextBuilder.read_of <$> quotes) start
  = (λ iq, ContextBuilder.format_similar_quote iq.1 iq.2)
    <$> Py.enumerate quotes start.
Proof.
  revert start. induction quotes as [|quote quotes IH]; intros start; [reflexivity|].
  rewrite fmap_cons. cbn [Py.enumerate]. rewrite !fmap_cons. cbn [fst snd].
  by rewrite format_similar_quote_read_of, IH.
Qed.

Lemma filter_idem {A : Type} (f : A → bool) (l : list A) :
  List.filter f (List.filter f l) = List.filter f l.
Proof.
  induction l as [|a l IH]; simpl; [reflexivity|].
  destruct (f a) eqn:Hf; simpl; [|exact IH]. by rewrite Hf, IH.
Qed.

Lemma append_empty_r (s : string) : s +:+ EmptyString = s.
Proof.
  induction s as [|c s IH]; [reflexivity|]. by rewrite append_cons, IH.
Qed.

(** An element of a joined list is inside the joined string. *)
Lemma join_elem (sep x : string) (l : list string) :
  x ∈ l → ∃ pre post, Py.join sep l = pre +:+ x +:+ post.
Proof.
  induction l as [|y l IH]; intros Hx; [by apply elem_of_nil in Hx|].
  apply elem_of_cons in Hx as [->|Hx].
  - destruct l as [|z l].
    + exists EmptyString, EmptyString.
      change (Py.join sep [y]) with y.
      by rewrite append_nil, append_empty_r.
    + by exists EmptyString, (sep +:+ Py.join sep (z :: l)).
  - destruct (IH Hx) as (pre & post & Hjoin).
    destruct l as [|z l]; [by apply elem_of_nil in Hx|].
    exists (y +:+ sep +:+ pre), post.
    change (Py.join sep (y :: z :: l)) with (y +:+ sep +:+ Py.join sep (z :: l)).
    by rewrite Hjoin, !append_assoc.
Qed.

(** The rendering of a catalog item holds its SKU line. *)
Lemma format_catalog_item_sku (item : CatalogItem.t) :
  ∃ post,
    ContextBuilder.format_catalog_item item
    = Py.nl +:+ ("- SKU: " +:+ CatalogItem.sku item) +:+ post.
Proof.
  unfold ContextBuilder.format_catalog_item. simpl Py.text.
  eexists. rewrite append_nil. reflexivity.
Qed.

(** The catalog section holds the SKU line of each item it is given. *)
Lemma format_catalog_sku (item : CatalogItem.t) (shown : list CatalogItem.t) :
  item ∈ shown →
  ∃ pre post,
    ContextBuilder._format_catalog shown
    = pre +:+ ("- SKU: " +:+ CatalogItem.sku item) +:+ post.
Proof.
  intros Hin. destruct shown as [|first rest]; [by apply elem_of_nil in Hin|].
  unfold ContextBuilder._format_catalog.
  destruct (join_elem Py.nl (ContextBuilder.format_catalog_item item)
              (ContextBuilder.format_catalog_item <$> first :: rest))
    as (pre & post & ->).
  { by apply list_elem_of_fmap_2. }
  destruct (format_catalog_item_sku item) as (tail & ->).
  exists (pre +:+ Py.nl), (tail +:+ post).
  by rewrite !append_assoc.
Qed.

End prompts.

Lemma contains_within (x s a b : string) :
  (∃ pre post, s = pre +:+ x +:+ post) →
  Py.contains x (a +:+ s +:+ b) = true.
Proof.
  intros (pre & post & ->).
  rewrite !append_assoc, <- (append_assoc a pre). apply contains_app.
Qed.

(** X9.  Of the similar quotes only the first ten reach the prompt, and
    of each of them only the first five line items and the first hundred
    characters of the customer notes. *)
Theorem similar_quotes_bounded `{FloatFormat} (request : QuoteRequest.t)
    (similar_quotes : list HistoricalQuote.t) (catalog : list CatalogItem.t) :
  ContextBuilder._format_similar_quotes similar_quotes
  = ContextBuilder._format_similar_quotes
      (ContextBuilder.read_of <$> take 10 similar_quotes)
  ∧ ContextBuilder.build_suggest_quote_prompt request similar_quotes catalog
    = ContextBuilder.build_suggest_quote_prompt request
        (ContextBuilder.read_of <$> take 10 similar_quotes) catalog.
Proof.
  assert (ContextBuilder._format_similar_quotes similar_quotes
          = ContextBuilder._format_similar_quotes
              (ContextBuilder.read_of <$> take 10 similar_quotes)) as Hsection.
  { destruct similar_quotes as [|quote quotes]; [reflexivity|].
    unfold ContextBuilder._format_similar_quotes.
    change (take 10 (quote :: quotes)) with (quote :: take 9 quotes).
    rewrite fmap_cons.
    change (ContextBuilder.read_of quote
              :: (ContextBuilder.read_of <$> take 9 quotes))
      with (ContextBuilder.read_of <$> take 10 (quote :: quotes)).
    rewrite <- fmap_take, take_take, Nat.min_id.
    by rewrite enumerate_read_of. }
  split; [exact Hsection|].
  unfold ContextBuilder.build_suggest_quote_prompt. by rewrite <- Hsection.
Qed.

(** X10.  Both catalog prompts read the catalog through its filter only:
    the prompt for a catalog is the prompt for its relevant items, and an
    item whose category does not contain the project type changes
    nothing. *)
Theorem prompts_read_relevant_items `{FloatFormat} (request : QuoteRequest.t)
    (similar_quotes : list HistoricalQuote.t) (catalog : list CatalogItem.t) :
  ContextBuilder.build_suggest_quote_prompt request similar_quotes catalog
  = ContextBuilder.build_suggest_quote_prompt request similar_quotes
      (List.filter (ContextBuilder.relevant request) catalog)
  ∧ ContextBuilder.build_upsell_prompt request catalog
    = ContextBuilder.build_upsell_prompt request
        (List.filter (ContextBuilder.relevant request) catalog)
  ∧ ∀ item,
      ContextBuilder.relevant request item = false →
      ContextBuilder.build_suggest_quote_prompt request similar_quotes
        (item :: catalog)
      = ContextBuilder.build_suggest_quote_prompt request similar_quotes catalog
      ∧ ContextBuilder.build_upsell_prompt request (item :: catalog)
        = ContextBuilder.build_upsell_prompt request catalog.
Proof.
  unfold ContextBuilder.build_suggest_quote_prompt,
    ContextBuilder.build_upsell_prompt.
  rewrite filter_idem. split; [reflexivity|]. split; [reflexivity|].
  intros item Hitem. simpl List.filter. by rewrite Hitem.
Qed.

(** X11.  In the suggestion prompt a square footage or a ceiling height of
    zero and an empty budget range are rendered like absent ones, as "Not
    specified". *)
Theorem prompt_zero_not_specified `{FloatFormat} (request : QuoteRequest.t)
    (similar_quotes : list HistoricalQuote.t) (catalog : list CatalogItem.t)
    (square_footage ceiling_height : Q) :
  (square_footage == 0)%Q →
  (ceiling_height == 0)%Q →
  ContextBuilder.build_suggest_quote_prompt
    (Cases.sized request (Some square_footage) (Some ceiling_height)
       (Some EmptyString))
    similar_quotes catalog
  = ContextBuilder.build_suggest_quote_prompt
      (Cases.sized request None None None) similar_quotes catalog.
Proof.
  intros Hsf Hch. apply Qeq_bool_iff in Hsf, Hch.
  unfold ContextBuilder.build_suggest_quote_prompt,
    ContextBuilder.suggest_quote_head, ContextBuilder.relevant,
    ContextBuilder.float_or, Cases.sized.
  cbn [QuoteRequest.tenant_id QuoteRequest.project_type
       QuoteRequest.customer_notes QuoteRequest.square_footage
       QuoteRequest.ceiling_height QuoteRequest.budget_range
       ContextBuilder.str_or].
  by rewrite Hsf, Hch.
Qed.

Lemma prompt_zero_not_specified_witness :
  (0 == 0)%Q
  ∧ ContextBuilder.build_suggest_quote_prompt
      (Cases.sized Scenario.request (Some 0%Q) (Some (0 # 5)) (Some EmptyString))
      [] Scenario.catalog
    = ContextBuilder.build_suggest_quote_prompt
        (Cases.sized Scenario.request None None None) [] Scenario.catalog.
Proof.
  split; [reflexivity|].
  apply (prompt_zero_not_specified Scenario.request [] Scenario.catalog 0 (0 # 5));
    reflexivity.
Defined.

(** X12.  Every catalog item whose category contains the project type has
    its line "- SKU: <sku>" in the suggestion prompt and in the upsell
    prompt. *)
Theorem prompts_list_relevant_skus `{FloatFormat} (request : QuoteRequest.t)
    (similar_quotes : list HistoricalQuote.t) (catalog : list CatalogItem.t)
    (item : CatalogItem.t) :
  item ∈ catalog →
  ContextBuilder.relevant request item = true →
  Py.contains ("- SKU: " +:+ CatalogItem.sku item)
    (ContextBuilder.build_suggest_quote_prompt request similar_quotes catalog)
  = true
  ∧ Py.contains ("- SKU: " +:+ CatalogItem.sku item)
      (ContextBuilder.build_upsell_prompt request catalog)
    = true.
Proof.
  intros Hin Hrelevant.
  assert (item ∈ List.filter (ContextBuilder.relevant request) catalog) as Hshown.
  { apply list_elem_of_In, List.filter_In. split; [|done].
    by apply list_elem_of_In. }
  apply format_catalog_sku in Hshown.
  unfold ContextBuilder.build_suggest_quote_prompt,
    ContextBuilder.build_upsell_prompt.
  split.
  - rewrite <- (append_assoc (ContextBuilder._format_similar_quotes _)).
    rewrite <- (append_assoc (ContextBuilder.suggest_quote_head _)).
    by apply contains_within.
  - by apply contains_within.
Qed.

Lemma prompts_list_relevant_skus_witness :
  Py.contains "- SKU: SHELF-8FT"
    (ContextBuilder.build_suggest_quote_prompt Scenario.request [] Scenario.catalog)
  = true
  ∧ Py.contains "- SKU: SHELF-8FT"
      (ContextBuilder.build_upsell_prompt Scenario.request Scenario.catalog)
    = true.
Proof.
  apply (prompts_list_relevant_skus Scenario.request [] Scenario.catalog
           Scenario.shelf).
  - apply list_elem_of_singleton. reflexivity.
  - reflexivity.
Defined.

(* ===================================================================== *)
(** ** The pricing rules in the prompt *)
(* ===================================================================== *)

Section pricing_rules.
Context `{ValueFormat}.

Lemma size_insert_ne_0 (rules : gmap string json) (key : string) (v : json) :
  size (<[key := v]> rules) ≠ 0%nat.
Proof.
  intros Hsize. apply map_size_empty_iff in Hsize.
  by apply insert_non_empty in Hsize.
Qed.

(** What is printed for a key depends on that key alone. *)
Lemma rule_insert_ne (rules : gmap string json) (key k : string) (v : json)
    (dflt : Z) :
  key ≠ k →
  ContextBuilder.rule (<[key := v]> rules) k dflt = ContextBuilder.rule rules k dflt.
Proof.
  intros Hne. unfold ContextBuilder.rule. by rewrite lookup_insert_ne.
Qed.

Lemma rule_insert (rules : gmap string json) (key : string) (v : json) (dflt : Z) :
  ContextBuilder.rule (<[key := v]> rules) key dflt = str_value v.
Proof.
  unfold ContextBuilder.rule. by rewrite lookup_insert_eq.
Qed.

Lemma rule_absent (rules : gmap string json) (key : string) (dflt : Z) :
  rules !! key = None → ContextBuilder.rule rules key dflt = Py.str_int dflt.
Proof.
  intros Hnone. unfold ContextBuilder.rule. rewrite Hnone. apply str_value_int.
Qed.

Lemma format_pricing_rules_nonempty (rules : gmap string json) :
  size rules ≠ 0%nat →
  ContextBuilder._format_pricing_rules rules
  = Py.text [
      EmptyString;
      "- Target Margin: " +:+
        ContextBuilder.rule rules "target_margin_percent" 40 +:+ "%";
      "- Minimum Margin: " +:+
        ContextBuilder.rule rules "minimum_margin_percent" 25 +:+ "%";
      "- Volume Discount: " +:+
        ContextBuilder.rule rules "volume_discount_threshold" 10 +:+
        " items @ " +:+
        ContextBuilder.rule rules "volume_discount_percent" 5 +:+ "%"
    ].
Proof.
  intros Hsize. unfold ContextBuilder._format_pricing_rules.
  by destruct (decide (size rules = 0%nat)).
Qed.

End pricing_rules.

(* ===================================================================== *)
(** ** More about validation *)
(* ===================================================================== *)

Section validation.
Context `{Pydantic}.

Lemma required_raises {A : Type} (validate : json → option A)
    (kw : gmap string json) (name : string) (e : Py.exn) :
  Field.required validate kw name = Py.Raise e → e = Py.ValidationError.
Proof.
  unfold Field.required. destruct (kw !! name) as [v|]; [|congruence].
  destruct (validate v); congruence.
Qed.

Lemma optional_raises {A : Type} (validate : json → option A)
    (kw : gmap string json) (name : string) (e : Py.exn) :
  Field.optional validate kw name = Py.Raise e → e = Py.ValidationError.
Proof.
  unfold Field.optional. destruct (kw !! name) as [v|]; [|congruence].
  destruct v; try congruence; destruct (validate _); congruence.
Qed.

Lemma required_absent {A : Type} (validate : json → option A)
    (kw : gmap string json) (name : string) :
  kw !! name = None → Field.required validate kw name = Py.Raise Py.ValidationError.
Proof.
  intros Hnone. unfold Field.required. by rewrite Hnone.
Qed.

Lemma required_delete_ne {A : Type} (validate : json → option A)
    (kw : gmap string json) (k name : string) :
  k ≠ name →
  Field.required validate (delete k kw) name = Field.required validate kw name.
Proof.
  intros Hne. unfold Field.required. by rewrite lookup_delete_ne.
Qed.

Lemma optional_delete {A : Type} (validate : json → option A)
    (kw : gmap string json) (name : string) :
  Field.optional validate (delete name kw) name = Py.Return None.
Proof.
  unfold Field.optional. by rewrite lookup_delete_eq.
Qed.

(** A member is found from its value, and from nothing else. *)
Lemma project_type_validate (v : json) (p : ProjectType) :
  ProjectTypes.validate v = Some p ↔ v = JStr (ProjectTypes.value p).
Proof.
  split.
  - destruct v as [| | | |s| |]; try discriminate.
    unfold ProjectTypes.validate, ProjectTypes.members.
    cbn [List.find ProjectTypes.value].
    repeat match goal with
    | |- context [String.eqb ?a s] =>
        destruct (String.eqb a s) eqn:E;
        [apply String.eqb_eq in E as <-; by intros [= <-]|clear E]
    end.
    discriminate.
  - intros ->. by destruct p.
Qed.

End validation.

(** X15.  A project type is validated from its value and from nothing
    else: a decoded value is accepted as a member exactly when it is the
    string that is the value of that member. *)
Theorem project_type_round_trip (v : json) (p : ProjectType) :
  (ProjectTypes.validate v = Some p ↔ v = JStr (ProjectTypes.value p))
  ∧ ProjectTypes.validate (JStr (ProjectTypes.value p)) = Some p
  ∧ (∀ p', ProjectTypes.value p' = ProjectTypes.value p → p' = p).
Proof.
  split; [apply project_type_validate|].
  split; [by apply project_type_validate|].
  intros p' Hvalue.
  assert (ProjectTypes.validate (JStr (ProjectTypes.value p')) = Some p) as Hp
    by (apply project_type_validate; by rewrite Hvalue).
  assert (ProjectTypes.validate (JStr (ProjectTypes.value p')) = Some p') as Hp'
    by by apply project_type_validate.
  congruence.
Qed.

(** X16.  The construction of a [QuoteRequest] fails with
    [ValidationError] and with nothing else; it fails when [tenant_id],
    [project_type] or [customer_notes] is missing; and a request that
    validates has its tenant and its notes from these keys and a project
    type whose value is the string given. *)
Theorem QuoteRequest_required_fields `{Pydantic} (kw : gmap string json) :
  (∀ e, QuoteRequest.new kw = Py.Raise e → e = Py.ValidationError)
  ∧ (kw !! "tenant_id" = None ∨ kw !! "project_type" = None
     ∨ kw !! "customer_notes" = None →
     QuoteRequest.new kw = Py.Raise Py.ValidationError)
  ∧ (∀ r, QuoteRequest.new kw = Py.Return r →
       ∃ tenant notes,
         kw !! "tenant_id" = Some tenant
         ∧ validate_str tenant = Some (QuoteRequest.tenant_id r)
         ∧ kw !! "project_type"
           = Some (JStr (ProjectTypes.value (QuoteRequest.project_type r)))
         ∧ kw !! "customer_notes" = Some notes
         ∧ validate_str notes = Some (QuoteRequest.customer_notes r)).
Proof.
  assert (∀ e, QuoteRequest.new kw = Py.Raise e → e = Py.ValidationError)
    as Hraise.
  { unfold QuoteRequest.new. intros e He.
    repeat match type of He with
    | Py.bind ?m _ = Py.Raise _ =>
        let E := fresh "E" in
        destruct m eqn:E; simpl in He;
        [|injection He as <-;
          first [by apply required_raises in E | by apply optional_raises in E]]
    end.
    discriminate. }
  assert (∀ r, QuoteRequest.new kw = Py.Return r →
            ∃ tenant notes,
              kw !! "tenant_id" = Some tenant
              ∧ validate_str tenant = Some (QuoteRequest.tenant_id r)
              ∧ kw !! "project_type"
                = Some (JStr (ProjectTypes.value (QuoteRequest.project_type r)))
              ∧ kw !! "customer_notes" = Some notes
              ∧ validate_str notes = Some (QuoteRequest.customer_notes r))
    as Hreturn.
  { unfold QuoteRequest.new. intros r Hr.
    destruct (Field.required validate_str kw "tenant_id") as [tenant_id|] eqn:E1;
      simpl in Hr; [|discriminate].
    destruct (Field.optional validate_str kw "customer_id"); simpl in Hr;
      [|discriminate].
    destruct (Field.required ProjectTypes.validate kw "project_type")
      as [project_type|] eqn:E2; simpl in Hr; [|discriminate].
    destruct (Field.required validate_str kw "customer_notes")
      as [customer_notes|] eqn:E3; simpl in Hr; [|discriminate].
    repeat match type of Hr with
    | Py.bind ?m _ = Py.Return _ => destruct m; simpl in Hr; [|discriminate]
    end.
    injection Hr as <-. simpl.
    apply required_returns in E1 as (tenant & Ht & Htv).
    apply required_returns in E2 as (pt & Hp & Hpv).
    apply required_returns in E3 as (notes & Hn & Hnv).
    apply project_type_validate in Hpv as ->.
    by exists tenant, notes. }
  split; [exact Hraise|]. split; [|exact Hreturn].
  intros Hmissing.
  destruct (QuoteRequest.new kw) as [r|e] eqn:Hnew.
  - destruct (Hreturn r eq_refl) as (tenant & notes & Ht & _ & Hp & Hn & _).
    destruct Hmissing as [Hm|[Hm|Hm]]; congruence.
  - by rewrite (Hraise e eq_refl).
Qed.

(** X17.  The [reasoning] of a line item is optional and the six other
    fields are required: keyword arguments that validate hold the six
    keys, and they validate with or without a [reasoning], giving the same
    item but for that field. *)
Theorem QuoteLineItem_reasoning_optional `{Pydantic} (kw : gmap string json)
    (item : QuoteLineItem.t) (reasoning : string) :
  QuoteLineItem.new kw = Py.Return item →
  Forall (λ key, is_Some (kw !! key))
    ["sku"; "description"; "quantity"; "unit_price"; "total"; "category"]
  ∧ QuoteLineItem.new (delete "reasoning" kw)
    = Py.Return (Cases.reasoned item None)
  ∧ QuoteLineItem.new (<["reasoning" := JNull]> kw)
    = Py.Return (Cases.reasoned item None)
  ∧ QuoteLineItem.new (<["reasoning" := JStr reasoning]> kw)
    = Py.Return (Cases.reasoned item (Some reasoning)).
Proof.
  unfold QuoteLineItem.new. intros Hnew.
  rewrite !required_delete_ne, optional_delete by done.
  rewrite !required_insert_ne by done.
  unfold Field.optional. rewrite !lookup_insert_eq, validate_str_str.
  destruct (Field.required validate_str kw "sku") as [sku|] eqn:E1;
    simpl in Hnew; [|discriminate].
  destruct (Field.required validate_str kw "description") as [description|] eqn:E2;
    simpl in Hnew; [|discriminate].
  destruct (Field.required validate_int kw "quantity") as [quantity|] eqn:E3;
    simpl in Hnew; [|discriminate].
  destruct (Field.required validate_float kw "unit_price") as [unit_price|] eqn:E4;
    simpl in Hnew; [|discriminate].
  destruct (Field.required validate_float kw "total") as [total|] eqn:E5;
    simpl in Hnew; [|discriminate].
  destruct (Field.required validate_str kw "category") as [category|] eqn:E6;
    simpl in Hnew; [|discriminate].
  destruct (Field.optional validate_str kw "reasoning") as [given|];
    simpl in Hnew; [|discriminate].
  injection Hnew as <-. cbn [Py.bind].
  split; [|done].
  apply required_returns in E1 as (v1 & Hv1 & _).
  apply required_returns in E2 as (v2 & Hv2 & _).
  apply required_returns in E3 as (v3 & Hv3 & _).
  apply required_returns in E4 as (v4 & Hv4 & _).
  apply required_returns in E5 as (v5 & Hv5 & _).
  apply required_returns in E6 as (v6 & Hv6 & _).
  repeat constructor; by eexists.
Qed.

Lemma QuoteLineItem_reasoning_optional_witness :
  ∃ item,
    QuoteLineItem.new (Cases.fields (Scenario.item "SHELF-8FT" 2 150 300 "base"))
    = Py.Return item
    ∧ QuoteLineItem.reasoning item = Some "fits"
    ∧ QuoteLineItem.new
        (delete "reasoning"
           (Cases.fields (Scenario.item "SHELF-8FT" 2 150 300 "base")))
      = Py.Return (Cases.reasoned item None).
Proof.
  eexists. split; [vm_compute; reflexivity|]. split; [reflexivity|].
  eapply (@QuoteLineItem_reasoning_optional strict
            (Cases.fields (Scenario.item "SHELF-8FT" 2 150 300 "base"))
            _ EmptyString).
  vm_compute. reflexivity.
Defined.

(** X18.  The [total] of a line item is not tied to its quantity and unit
    price: keyword arguments that validate still validate, with the same
    other fields, when [total] is set to any float. *)
Theorem QuoteLineItem_total_unchecked `{Pydantic} (kw : gmap string json)
    (item : QuoteLineItem.t) (total : Q) :
  QuoteLineItem.new kw = Py.Return item →
  QuoteLineItem.new (<["total" := JFloat total]> kw)
  = Py.Return (Cases.totalled item total).
Proof.
  unfold QuoteLineItem.new. intros Hnew.
  rewrite !required_insert_ne, optional_insert_ne by done.
  rewrite (required_insert_ne _ _ "total" "category") by done.
  unfold Field.required at 5. rewrite lookup_insert_eq, validate_float_float.
  repeat match type of Hnew with
  | Py.bind ?m _ = Py.Return _ => destruct m; simpl in Hnew; [|discriminate]
  end.
  by injection Hnew as <-.
Qed.

(** Two shelves at 150 each, with a total of 1. *)
Lemma QuoteLineItem_total_unchecked_witness :
  ∃ item,
    QuoteLineItem.new (Cases.fields (Scenario.item "SHELF-8FT" 2 150 300 "base"))
    = Py.Return item
    ∧ QuoteLineItem.new
        (<["total" := JFloat 1]>
           (Cases.fields (Scenario.item "SHELF-8FT" 2 150 300 "base")))
      = Py.Return (Cases.totalled item 1).
Proof.
  eexists. split; [vm_compute; reflexivity|].
  eapply (@QuoteLineItem_total_unchecked strict
            (Cases.fields (Scenario.item "SHELF-8FT" 2 150 300 "base")) _ 1).
  vm_compute. reflexivity.
Defined.


(* ===================================================================== *)
(** ** The margin in binary64 *)
(* ===================================================================== *)

Section binary64.
Import Floats.

(** A float greater than zero is not zero. *)
Lemma positive_nonzero (x : float) :
  PrimFloat.ltb 0 x = true → PrimFloat.eqb x 0 = false.
Proof.
  rewrite FloatAxioms.ltb_spec, FloatAxioms.eqb_spec.
  change (Prim2SF 0) with (S754_zero false).
  destruct (Prim2SF x) as [sign|sign| |sign m e]; try destruct sign;
    cbn; congruence.
Qed.

(** Behind its guard the division never meets a zero: the margin is
    always computed. *)
Lemma margin_percent_returns (subtotal cost : float) :
  Binary64.margin_percent subtotal cost
  = Py.Return
      (if PrimFloat.ltb 0 subtotal
       then PrimFloat.mul
              (PrimFloat.div (PrimFloat.sub subtotal cost) subtotal) 100
       else 0%float).
Proof.
  unfold Binary64.margin_percent, Binary64.div.
  destruct (PrimFloat.ltb 0 subtotal) eqn:Hguard; [|reflexivity].
  by rewrite (positive_nonzero _ Hguard).
Qed.

Lemma estimated_margin_percent_returns (totals : list float) :
  Binary64.estimated_margin_percent totals
  = Py.Return
      (Binary64.round
         (if PrimFloat.ltb 0 (Binary64.sum totals)
          then PrimFloat.mul
                 (PrimFloat.div
                    (PrimFloat.sub (Binary64.sum totals) (Binary64.cost totals))
                    (Binary64.sum totals)) 100
          else 0%float) 2).
Proof.
  unfold Binary64.estimated_margin_percent.
  by rewrite margin_percent_returns.
Qed.

End binary64.

(* ===================================================================== *)
(** ** What an attempt does not depend on, and what it never raises *)
(* ===================================================================== *)

Section independence.
Context `{Pydantic} `{FloatFormat}.

Lemma retry_ext {A : Type} (stop : nat → bool) (wait : nat → Z)
    (fn fn' : nat → Py.result A) (fuel k : nat) :
  (∀ n, fn' n = fn n) →
  Tenacity.retry stop wait fn' fuel k = Tenacity.retry stop wait fn fuel k.
Proof.
  intros Hext. revert k. induction fuel as [|fuel IH]; intros k; [reflexivity|].
  simpl. by rewrite Hext, IH.
Qed.

(** The catalog reaches an attempt through the prompt and the answer to
    it, and through nothing else. *)
Lemma suggest_quote_body_catalog (w : world) (request : QuoteRequest.t)
    (similar_quotes : list HistoricalQuote.t)
    (catalog catalog' : list CatalogItem.t) :
  create w (ContextBuilder.build_suggest_quote_prompt request similar_quotes catalog')
  = create w (ContextBuilder.build_suggest_quote_prompt request similar_quotes catalog) →
  suggest_quote_body w request similar_quotes catalog'
  = suggest_quote_body w request similar_quotes catalog.
Proof.
  intros Hcreate. unfold suggest_quote_body. cbv zeta. by rewrite Hcreate.
Qed.

Lemma handler_raises {A : Type} (m : Py.result A) :
  handler m = Py.Raise Py.ZeroDivisionError → m = Py.Raise Py.ZeroDivisionError.
Proof.
  destruct m as [|[]]; simpl; congruence.
Qed.

Lemma new_line_item_raises (kw : gmap string json) (e : Py.exn) :
  QuoteLineItem.new kw = Py.Raise e → e = Py.ValidationError.
Proof.
  unfold QuoteLineItem.new. intros He.
  repeat match type of He with
  | Py.bind ?m _ = Py.Raise _ =>
      let E := fresh "E" in
      destruct m eqn:E; simpl in He;
      [|injection He as <-;
        first [by apply required_raises in E | by apply optional_raises in E]]
  end.
  discriminate.
Qed.

Lemma build_line_items_raises (items : json) (e : Py.exn) :
  build_line_items items = Py.Raise e →
  e = Py.TypeError ∨ e = Py.ValidationError.
Proof.
  unfold build_line_items. intros He.
  destruct (Json.iter items) as [decoded|e'] eqn:Hiter; simpl in He.
  - clear Hiter. induction decoded as [|item decoded IH]; simpl in He;
      [discriminate|].
    destruct (Json.kwargs item) as [kw|e'] eqn:Hkw; simpl in He.
    + destruct (QuoteLineItem.new kw) as [li|e'] eqn:Hnew; simpl in He.
      * destruct (Py.comprehension _ decoded) as [ys|e'] eqn:Hrest;
          simpl in He; [discriminate|].
        injection He as Heq. subst. auto.
      * injection He as <-. right. by apply new_line_item_raises in Hnew.
    + injection He as <-. left. destruct item; simpl in Hkw; congruence.
  - injection He as <-. left. destruct items; simpl in Hiter; congruence.
Qed.

(** Once the model has answered, nothing in an attempt divides by zero. *)
Lemma suggest_quote_body_no_zero_division (w : world) (request : QuoteRequest.t)
    (similar_quotes : list HistoricalQuote.t) (catalog : list CatalogItem.t)
    (response : ChatCompletion) :
  create w (ContextBuilder.build_suggest_quote_prompt request similar_quotes catalog)
    = Py.Return response →
  suggest_quote_body w request similar_quotes catalog
    ≠ Py.Raise Py.ZeroDivisionError.
Proof.
  intros Hcreate Hb. unfold suggest_quote_body in Hb.
  apply handler_raises in Hb. rewrite Hcreate in Hb. simpl in Hb.
  destruct (content response) as [[| | | | | |d]|]; simpl in Hb; try discriminate.
  destruct (d !! "line_items") as [items|]; simpl in Hb; [|discriminate].
  destruct (build_line_items items) as [line_items|e] eqn:Hitems; simpl in Hb.
  2: { injection Hb as ->. by destruct (build_line_items_raises _ _ Hitems). }
  rewrite guarded_margin in Hb. cbn [Py.bind] in Hb.
  unfold Json.get in Hb.
  assert (∀ (k : string) (dflt : json),
            match d !! k with
            | Some v => Py.Return v
            | None => Py.Return dflt
            end = Py.Return (default dflt (d !! k))) as Hget
    by (intros k dflt; by destruct (d !! k)).
  rewrite !Hget in Hb. cbn [Py.bind] in Hb.
  destruct (build_line_items (default _ _)) as [upsells|e] eqn:Hups;
    cbn [Py.bind] in Hb.
  2: { injection Hb as ->. by destruct (build_line_items_raises _ _ Hups). }
  unfold QuoteResponse.new in Hb.
  destruct (validate_str _); [destruct (validate_float _)|]; discriminate.
Qed.


End independence.

(* ===================================================================== *)
(** ** The SKUs and the catalog *)
(* ===================================================================== *)

(** C1, as the code has it.  For every call to [suggest_quote] that
    returns, the line items and the upsell suggestions of the response are
    the items of the model's document, one for one and in order, each with
    the SKU the document gives, and no item is dropped.  No SKU is
    compared with the catalog: the catalog serves the prompt only, so the
    call returns the same response, after the same attempts, with any
    other catalog to whose prompt the model gives the same answers, the
    empty catalog included. *)
Theorem suggest_quote_skus_from_model `{Pydantic} `{FloatFormat}
    (worlds : nat → world) (request : QuoteRequest.t)
    (similar_quotes : list HistoricalQuote.t) (catalog : list CatalogItem.t)
    (fuel : nat) (r : QuoteResponse.t) (events : list Tenacity.event) :
  suggest_quote worlds request similar_quotes catalog fuel
    = Some (Py.Return r, events) →
  (∃ n response d items,
     (1 ≤ n ≤ 3)%nat
     ∧ create (worlds n)
         (ContextBuilder.build_suggest_quote_prompt request similar_quotes catalog)
       = Py.Return response
     ∧ content response = Some (JObj d)
     ∧ d !! "line_items" = Some items
     ∧ keeps_skus items (QuoteResponse.line_items r)
     ∧ keeps_skus (default (JArr []) (d !! "upsell_suggestions"))
         (QuoteResponse.upsell_suggestions r))
  ∧ (∀ catalog' : list CatalogItem.t,
       (∀ n,
          create (worlds n)
            (ContextBuilder.build_suggest_quote_prompt request similar_quotes catalog')
          = create (worlds n)
              (ContextBuilder.build_suggest_quote_prompt request similar_quotes catalog)) →
       suggest_quote worlds request similar_quotes catalog' fuel
       = Some (Py.Return r, events)).
Proof.
  intros Hr. split.
  - apply suggest_quote_returns in Hr as (n & Hn & Hbody).
    apply suggest_quote_body_returns in Hbody
      as (response & d & items & Hcreate & Hcontent & Hitems & Hli & Hup & _).
    exists n, response, d, items.
    repeat split; try done; try lia; by apply build_line_items_keeps_skus.
  - intros catalog' Hsame. rewrite <- Hr. unfold suggest_quote.
    apply retry_ext. intros n. by apply suggest_quote_body_catalog.
Qed.

(** The model prices GHOST-1 and GHOST-2: the response has them with the
    catalog of the scenario and with no catalog at all. *)
Lemma suggest_quote_skus_from_model_witness :
  ∃ r, Scenario.quoted Scenario.ghosts = Some r
       ∧ QuoteLineItem.sku <$> QuoteResponse.line_items r = ["GHOST-1"]
       ∧ QuoteLineItem.sku <$> QuoteResponse.upsell_suggestions r = ["GHOST-2"]
       ∧ suggest_quote (λ _, Scenario.answering Scenario.ghosts)
           Scenario.request [] [] 3
         = Some (Py.Return r, [Tenacity.Attempt 1]).
Proof.
  eexists. split; [vm_compute; reflexivity|].
  split; [reflexivity|]. split; [reflexivity|].
  match goal with
  | |- _ = Some (Py.Return ?r, _) =>
      destruct (@suggest_quote_skus_from_model strict decimal
                  (λ _, Scenario.answering Scenario.ghosts)
                  Scenario.request [] Scenario.catalog 3 r [Tenacity.Attempt 1]
                  ltac:(vm_compute; reflexivity)) as [_ Hany]
  end.
  apply Hany. reflexivity.
Defined.

(* ===================================================================== *)
(** ** The subtotal and the category of a line *)
(* ===================================================================== *)




(* ===================================================================== *)
(** ** The catalog section of the prompts *)
(* ===================================================================== *)

(** C7.  In the prompts of [build_suggest_quote_prompt] and of
    [build_upsell_prompt] the catalog section is made of exactly the items
    whose category contains the value of the request's project type as a
    case-insensitive substring: it is the blocks of these items, each with
    its SKU, name, description, price and typical quantity (Varies when
    it has none), in the order of the catalog and joined by line breaks,
    or the sentence for an empty
    list when there is none; the block of each such item is therefore
    inside both prompts.  The category closet-accessories is one for the
    project type closet. *)
Theorem catalog_section_filter `{FloatFormat} (request : QuoteRequest.t)
    (similar_quotes : list HistoricalQuote.t) (catalog : list CatalogItem.t) :
  let token := ProjectTypes.value (QuoteRequest.project_type request) in
  let shown := List.filter (ContextBuilder.relevant request) catalog in
  let block := λ item : CatalogItem.t,
    Py.text [
      EmptyString;
      "- SKU: " +:+ CatalogItem.sku item;
      "  Name: " +:+ CatalogItem.name item;
      "  Description: " +:+ CatalogItem.description item;
      "  Price: $" +:+ format_2f (CatalogItem.base_price item);
      "  Typical Qty: " +:+
        ContextBuilder.str_or (CatalogItem.typical_quantity_range item) "Varies"
    ] in
  let section :=
    match shown with
    | [] => "No catalog items available."
    | _ => Py.join Py.nl (block <$> shown)
    end in
  ContextBuilder.build_suggest_quote_prompt request similar_quotes catalog
    = ContextBuilder.suggest_quote_head request +:+
      ContextBuilder._format_similar_quotes similar_quotes +:+
      ContextBuilder.suggest_quote_middle +:+
      section +:+
      ContextBuilder.suggest_quote_tail
  ∧ ContextBuilder.build_upsell_prompt request catalog
    = ContextBuilder.upsell_head request +:+
      section +:+
      ContextBuilder.upsell_tail
  ∧ section = ContextBuilder._format_catalog shown
  ∧ shown `sublist_of` catalog
  ∧ (∀ item, item ∈ shown ↔
       item ∈ catalog ∧
       Spec.contains_ignoring_case token (CatalogItem.category item))
  ∧ (∀ item, item ∈ shown →
       Py.contains (block item)
         (ContextBuilder.build_suggest_quote_prompt request similar_quotes catalog)
       = true
       ∧ Py.contains (block item)
           (ContextBuilder.build_upsell_prompt request catalog)
         = true)
  ∧ (token = "closet" →
     ∀ item, CatalogItem.category item = "closet-accessories" →
       item ∈ catalog → item ∈ shown).
Proof.
  intros token shown block section.
  assert (section = ContextBuilder._format_catalog shown) as Hsection.
  { unfold section, ContextBuilder._format_catalog.
    by destruct shown. }
  assert (∀ item, item ∈ shown ↔
            item ∈ catalog ∧
            Spec.contains_ignoring_case token (CatalogItem.category item))
    as Hshown.
  { intros item. unfold shown. rewrite !list_elem_of_In, List.filter_In.
    unfold ContextBuilder.relevant. fold token.
    by rewrite (contains_lower token _ (lower_value _)). }
  split; [by rewrite Hsection|]. split; [by rewrite Hsection|].
  split; [exact Hsection|]. split.
  { unfold shown. clear. induction catalog as [|item l IH]; simpl.
    - constructor.
    - destruct (ContextBuilder.relevant request item); by constructor. }
  split; [exact Hshown|]. split.
  - intros item Hin.
    assert (∃ pre post,
              ContextBuilder._format_catalog shown = pre +:+ block item +:+ post)
      as Hinside.
    { rewrite <- Hsection. unfold section.
      destruct shown as [|first rest]; [by apply elem_of_nil in Hin|].
      apply join_elem. by apply list_elem_of_fmap_2. }
    unfold ContextBuilder.build_suggest_quote_prompt,
      ContextBuilder.build_upsell_prompt. fold shown.
    split.
    + rewrite <- (append_assoc (ContextBuilder._format_similar_quotes _)).
      rewrite <- (append_assoc (ContextBuilder.suggest_quote_head _)).
      by apply contains_within.
    + by apply contains_within.
  - intros Htoken item Hcategory Hin. apply Hshown. split; [done|].
    rewrite Htoken, Hcategory.
    by exists EmptyString, "closet", "-accessories".
Qed.

(* ===================================================================== *)
(** ** The estimated margin *)
(* ===================================================================== *)

Section margin.
Import Floats.

(** C8, as the code has it.  In [suggest_quote] the estimated margin
    percent is (subtotal - cost) / subtotal * 100, the cost being the sum
    of 0.6 times each line total, when the subtotal is greater than 0, and
    it is 0 when the subtotal is 0 or less.  The guard keeps the division
    from a zero divisor: no attempt to which the model has answered raises
    ZeroDivisionError, and in binary64 the margin lines return for every
    list of totals.  In exact arithmetic, line items whose totals add up
    to 1000 give the cost 600 and the margin 40; in binary64 a single line
    of 1000.0 gives the cost 600.0 and the margin 40.0. *)
Theorem suggest_quote_margin_guarded `{Pydantic} `{FloatFormat}
    (worlds : nat → world) (request : QuoteRequest.t)
    (similar_quotes : list HistoricalQuote.t) (catalog : list CatalogItem.t)
    (fuel : nat) (r : QuoteResponse.t) (events : list Tenacity.event) :
  suggest_quote worlds request similar_quotes catalog fuel
    = Some (Py.Return r, events) →
  let subtotal := QuoteResponse.subtotal r in
  let cost := Spec.cost (QuoteResponse.line_items r) in
  ((0 < subtotal)%Q →
     (QuoteResponse.estimated_margin_percent r
        == Spec.margin_percent subtotal cost)%Q)
  ∧ ((subtotal <= 0)%Q → (QuoteResponse.estimated_margin_percent r == 0)%Q)
  ∧ ((subtotal == 1000)%Q →
     (cost == 600)%Q ∧ (QuoteResponse.estimated_margin_percent r == 40)%Q)
  ∧ (∀ (n : nat) (response : ChatCompletion),
       create (worlds n)
         (ContextBuilder.build_suggest_quote_prompt request similar_quotes catalog)
       = Py.Return response →
       suggest_quote_body (worlds n) request similar_quotes catalog
       ≠ Py.Raise Py.ZeroDivisionError)
  ∧ (∀ totals : list float,
       Binary64.estimated_margin_percent totals
       = Py.Return
           (Binary64.round
              (if PrimFloat.ltb 0 (Binary64.sum totals)
               then PrimFloat.mul
                      (PrimFloat.div
                         (PrimFloat.sub (Binary64.sum totals)
                            (Binary64.cost totals))
                         (Binary64.sum totals)) 100
               else 0%float) 2))
  ∧ Binary64.sum [1000%float] = 1000%float
  ∧ Binary64.cost [1000%float] = 600%float
  ∧ Binary64.estimated_margin_percent [1000%float] = Py.Return 40%float.
Proof.
  intros Hr subtotal cost.
  apply returned_margin in Hr as [Hsub Hmargin].
  fold subtotal in Hsub, Hmargin.
  assert ((0 < subtotal)%Q →
          (QuoteResponse.estimated_margin_percent r == 40)%Q) as Hpos.
  { intros Hs. apply gt_true in Hs. by rewrite Hmargin, Hs. }
  split; [|split; [|split; [|split; [|split]]]].
  - intros Hs. rewrite (Hpos Hs). symmetry.
    unfold cost. rewrite Hsub. apply margin_percent_40.
    rewrite <- Hsub. lra.
  - intros Hs. apply gt_false in Hs. by rewrite Hmargin, Hs.
  - intros Hs. split.
    + unfold cost. rewrite cost_of_subtotal, <- Hsub, Hs. reflexivity.
    + apply Hpos. lra.
  - intros n response. apply suggest_quote_body_no_zero_division.
  - apply estimated_margin_percent_returns.
  - repeat split; vm_compute; reflexivity.
Qed.

(** Lines of 300 and 700: subtotal 1000, cost 600, margin 40. *)
Lemma suggest_quote_margin_guarded_witness :
  ∃ r, Scenario.quoted Scenario.thousand = Some r
       ∧ (QuoteResponse.subtotal r == 1000)%Q
       ∧ (Spec.cost (QuoteResponse.line_items r) == 600)%Q
       ∧ (QuoteResponse.estimated_margin_percent r == 40)%Q
       ∧ suggest_quote_body (Scenario.answering Scenario.thousand)
           Scenario.request [] Scenario.catalog
         ≠ Py.Raise Py.ZeroDivisionError.
Proof.
  eexists. split; [vm_compute; reflexivity|].
  split; [vm_compute; reflexivity|].
  match goal with
  | |- (Spec.cost (QuoteResponse.line_items ?r) == _)%Q ∧ _ =>
      destruct (@suggest_quote_margin_guarded strict decimal
                  (λ _, Scenario.answering Scenario.thousand)
                  Scenario.request [] Scenario.catalog 3 r [Tenacity.Attempt 1]
                  ltac:(vm_compute; reflexivity))
        as (_ & _ & Hthousand & Hguard & _)
  end.
  destruct (Hthousand ltac:(vm_compute; reflexivity)) as [Hcost Hmargin].
  split; [exact Hcost|]. split; [exact Hmargin|].
  apply (Hguard 1%nat {| content := Some Scenario.thousand;
                          created := 1700000000 |}).
  reflexivity.
Defined.

(** C8 as stated fails below zero: with one line of -100 the subtotal is
    -100, not 0, and the formula gives 40, yet the margin stored is 0; so
    it is in binary64.  In binary64 the totals 2^60, 1024, -2^60 and -24
    add up to 1000.0 and have the cost 625.6 and the margin 37.44. *)
Lemma suggest_quote_margin_negative_subtotal :
  ∃ r, Scenario.quoted Scenario.refund = Some r
       ∧ (QuoteResponse.subtotal r == -100)%Q
       ∧ (Spec.margin_percent (QuoteResponse.subtotal r)
            (Spec.cost (QuoteResponse.line_items r)) == 40)%Q
       ∧ (QuoteResponse.estimated_margin_percent r == 0)%Q
       ∧ Binary64.sum [(-100)%float] = (-100)%float
       ∧ PrimFloat.mul
           (PrimFloat.div
              (PrimFloat.sub (Binary64.sum [(-100)%float])
                 (Binary64.cost [(-100)%float]))
              (Binary64.sum [(-100)%float])) 100
         = 40%float
       ∧ Binary64.estimated_margin_percent [(-100)%float] = Py.Return 0%float
       ∧ (let totals := [0x1p60%float; 1024%float; (-0x1p60)%float; (-24)%float] in
          Binary64.sum totals = 1000%float
          ∧ Binary64.cost totals = 625.6%float
          ∧ Binary64.estimated_margin_percent totals = Py.Return 37.44%float).
Proof.
  eexists. split; [vm_compute; reflexivity|].
  repeat split; vm_compute; reflexivity.
Qed.

(** C10, as the code has it.  For every [QuoteResponse] returned by
    [suggest_quote], the estimated margin percent is 0 when the subtotal
    is not greater than 0; when it is greater, the margin is
    (subtotal - cost) / subtotal * 100 rounded to two places, which is 40
    in exact arithmetic whatever the line items, and 40.0 in binary64 for
    a single line of 300.0, but not 40.0 for every list of line items in
    binary64. *)
Theorem suggest_quote_margin_constant `{Pydantic} `{FloatFormat}
    (worlds : nat → world) (request : QuoteRequest.t)
    (similar_quotes : list HistoricalQuote.t) (catalog : list CatalogItem.t)
    (fuel : nat) (r : QuoteResponse.t) (events : list Tenacity.event) :
  suggest_quote worlds request similar_quotes catalog fuel
    = Some (Py.Return r, events) →
  ((0 < QuoteResponse.subtotal r)%Q →
     (QuoteResponse.estimated_margin_percent r == 40)%Q)
  ∧ ((QuoteResponse.subtotal r <= 0)%Q →
     (QuoteResponse.estimated_margin_percent r == 0)%Q)
  ∧ (∀ totals : list float,
       PrimFloat.ltb 0 (Binary64.sum totals) = false →
       Binary64.estimated_margin_percent totals = Py.Return 0%float)
  ∧ (∀ totals : list float,
       PrimFloat.ltb 0 (Binary64.sum totals) = true →
       Binary64.estimated_margin_percent totals
       = Py.Return
           (Binary64.round
              (PrimFloat.mul
                 (PrimFloat.div
                    (PrimFloat.sub (Binary64.sum totals) (Binary64.cost totals))
                    (Binary64.sum totals)) 100) 2))
  ∧ Binary64.estimated_margin_percent [300%float] = Py.Return 40%float.
Proof.
  intros Hr. apply returned_margin in Hr as [_ Hmargin].
  rewrite Hmargin. split; [|split; [|split; [|split]]].
  - intros Hs. apply gt_true in Hs. by rewrite Hs.
  - intros Hs. apply gt_false in Hs. by rewrite Hs.
  - intros totals Hguard.
    by rewrite estimated_margin_percent_returns, Hguard.
  - intros totals Hguard.
    by rewrite estimated_margin_percent_returns, Hguard.
  - vm_compute. reflexivity.
Qed.

(** Two shelves at 150: subtotal 300, margin 40. *)
Lemma suggest_quote_margin_constant_witness :
  ∃ r, Scenario.quoted Scenario.shelves = Some r
       ∧ (QuoteResponse.subtotal r == 300)%Q
       ∧ (QuoteResponse.estimated_margin_percent r == 40)%Q.
Proof.
  eexists. split; [vm_compute; reflexivity|].
  split; [vm_compute; reflexivity|].
  match goal with
  | |- (QuoteResponse.estimated_margin_percent ?r == _)%Q =>
      destruct (@suggest_quote_margin_constant strict decimal
                  (λ _, Scenario.answering Scenario.shelves)
                  Scenario.request [] Scenario.catalog 3 r [Tenacity.Attempt 1]
                  ltac:(vm_compute; reflexivity))
        as (Hpos & _)
  end.
  apply Hpos. vm_compute. reflexivity.
Defined.

(** C10 as stated fails in binary64, the arithmetic of the code: a single
    line of 5e-324, the least positive float, has a subtotal greater than
    0 and a cost equal to the subtotal, hence the margin 0.0; a single
    line of 1e-323 has the margin 50.0; two lines of 1e308 have an
    infinite subtotal and a margin that is not a number; the lines 1e17,
    20 and -1e17 have the subtotal 16.0 and the margin 0.0. *)
Lemma margin_not_constant_binary64 :
  PrimFloat.ltb 0 (Binary64.sum [5e-324%float]) = true
  ∧ Binary64.cost [5e-324%float] = Binary64.sum [5e-324%float]
  ∧ Binary64.estimated_margin_percent [5e-324%float] = Py.Return 0%float
  ∧ PrimFloat.ltb 0 (Binary64.sum [1e-323%float]) = true
  ∧ Binary64.estimated_margin_percent [1e-323%float] = Py.Return 50%float
  ∧ PrimFloat.ltb 0 (Binary64.sum [1e308%float; 1e308%float]) = true
  ∧ Binary64.estimated_margin_percent [1e308%float; 1e308%float]
    = Py.Return PrimFloat.nan
  ∧ Binary64.sum [1e17%float; 20%float; (-1e17)%float] = 16%float
  ∧ Binary64.estimated_margin_percent [1e17%float; 20%float; (-1e17)%float]
    = Py.Return 0%float.
Proof.
  repeat split; vm_compute; reflexivity.
Qed.

End margin.

(* ===================================================================== *)
(** ** No line items; the pricing rules one by one *)
(* ===================================================================== *)

(** X6.  A response returned with no line item has subtotal, tax, total
    and estimated margin all zero, and the margin division is not
    reached: an attempt to which the model has answered with an empty
    list of line items does not raise ZeroDivisionError. *)
Theorem suggest_quote_no_line_items `{Pydantic} `{FloatFormat}
    (worlds : nat → world) (request : QuoteRequest.t)
    (similar_quotes : list HistoricalQuote.t) (catalog : list CatalogItem.t)
    (fuel : nat) (r : QuoteResponse.t) (events : list Tenacity.event) :
  suggest_quote worlds request similar_quotes catalog fuel
    = Some (Py.Return r, events) →
  QuoteResponse.line_items r = [] →
  QuoteResponse.subtotal r = 0%Q
  ∧ (QuoteResponse.tax r == 0)%Q
  ∧ (QuoteResponse.total r == 0)%Q
  ∧ (QuoteResponse.estimated_margin_percent r == 0)%Q
  ∧ (∀ (n : nat) (response : ChatCompletion) (d : gmap string json),
       create (worlds n)
         (ContextBuilder.build_suggest_quote_prompt request similar_quotes catalog)
       = Py.Return response →
       content response = Some (JObj d) →
       d !! "line_items" = Some (JArr []) →
       suggest_quote_body (worlds n) request similar_quotes catalog
       ≠ Py.Raise Py.ZeroDivisionError).
Proof.
  intros Hr Hempty.
  destruct (returned_margin _ _ _ _ _ _ _ Hr) as [_ Hmargin].
  apply suggest_quote_returns in Hr as (n & _ & Hbody).
  apply suggest_quote_body_returns in Hbody
    as (response & d & items & _ & _ & _ & _ & _ & _ & Hsub & Htax & Htotal & _).
  rewrite Hempty in Hsub. change (Py.sum _) with 0%Q in Hsub.
  rewrite Hmargin, Htotal, Htax, Hsub.
  repeat split; try reflexivity.
  intros n' response' d' Hcreate _ _.
  by apply (suggest_quote_body_no_zero_division _ _ _ _ response').
Qed.

Lemma suggest_quote_no_line_items_witness :
  ∃ r, Scenario.quoted Cases.terse = Some r
       ∧ QuoteResponse.subtotal r = 0%Q
       ∧ (QuoteResponse.tax r == 0)%Q
       ∧ (QuoteResponse.total r == 0)%Q
       ∧ (QuoteResponse.estimated_margin_percent r == 0)%Q
       ∧ suggest_quote_body (Scenario.answering Cases.terse)
           Scenario.request [] Scenario.catalog
         = Py.Return r.
Proof.
  eexists. split; [vm_compute; reflexivity|].
  match goal with
  | |- QuoteResponse.subtotal ?r = _ ∧ _ =>
      destruct (@suggest_quote_no_line_items strict decimal
                  (λ _, Scenario.answering Cases.terse)
                  Scenario.request [] Scenario.catalog 3 r [Tenacity.Attempt 1]
                  ltac:(vm_compute; reflexivity) ltac:(reflexivity))
        as (Hsub & Htax & Htotal & Hmargin & _)
  end.
  repeat split; assumption || (vm_compute; reflexivity).
Defined.

(** X13.  The pricing section of the prompt is "Standard pricing applies."
    for an empty dict of rules.  For any other dict it prints four rules
    only: a key besides these four, such as [seasonal_multiplier], has no
    influence whatever its value, and each of the four keys is printed
    with the value the dict has for it or, when the dict lacks this key,
    with its default, 40, 25, 10 and 5, whatever the other keys. *)
Theorem pricing_rules_section `{ValueFormat} :
  ContextBuilder._format_pricing_rules ∅ = "Standard pricing applies."
  ∧ (∀ (rules : gmap string json) (key : string) (v v' : json),
       key ∉ ["target_margin_percent"; "minimum_margin_percent";
              "volume_discount_threshold"; "volume_discount_percent"] →
       ContextBuilder._format_pricing_rules (<[key := v]> rules)
       = ContextBuilder._format_pricing_rules (<[key := v']> rules))
  ∧ (∀ rules : gmap string json,
       size rules ≠ 0%nat →
       rules !! "target_margin_percent" = None →
       rules !! "minimum_margin_percent" = None →
       rules !! "volume_discount_threshold" = None →
       rules !! "volume_discount_percent" = None →
       ContextBuilder._format_pricing_rules rules
       = Py.text [EmptyString;
                  "- Target Margin: 40%";
                  "- Minimum Margin: 25%";
                  "- Volume Discount: 10 items @ 5%"])
  ∧ (∀ rules : gmap string json,
       size rules ≠ 0%nat →
       let printed := λ (key dflt : string),
         from_option str_value dflt (rules !! key) in
       ContextBuilder._format_pricing_rules rules
       = Py.text [EmptyString;
                  "- Target Margin: " +:+
                    printed "target_margin_percent" "40" +:+ "%";
                  "- Minimum Margin: " +:+
                    printed "minimum_margin_percent" "25" +:+ "%";
                  "- Volume Discount: " +:+
                    printed "volume_discount_threshold" "10" +:+
                    " items @ " +:+
                    printed "volume_discount_percent" "5" +:+ "%"]).
Proof.
  split; [reflexivity|]. split; [|split].
  - intros rules key v v' Hkey.
    apply not_elem_of_cons in Hkey as [H1 Hkey].
    apply not_elem_of_cons in Hkey as [H2 Hkey].
    apply not_elem_of_cons in Hkey as [H3 Hkey].
    apply not_elem_of_cons in Hkey as [H4 _].
    rewrite !format_pricing_rules_nonempty by apply size_insert_ne_0.
    by rewrite !rule_insert_ne.
  - intros rules Hsize H1 H2 H3 H4.
    rewrite format_pricing_rules_nonempty by done.
    by rewrite !rule_absent.
  - intros rules Hsize printed.
    rewrite format_pricing_rules_nonempty by done.
    assert (∀ (key : string) (dflt : Z),
              ContextBuilder.rule rules key dflt
              = printed key (Py.str_int dflt)) as Hrule.
    { intros key dflt. unfold ContextBuilder.rule, printed.
      destruct (rules !! key); [reflexivity|apply str_value_int]. }
    by rewrite !Hrule.
Qed.
